(** * Thermal-diffusion data acquisition: a shallow embedding

    The repository holds three acquisition scripts for an MCC USB-234 board:
    [read_2_channels.py], [read_4_channels_and_output.py] and
    [acquire_thermal_diffusion_mcc.py].  Each defines a class [MCCInterface]
    with an [__init__] and a [measure] method.

    The scripts are straight-line Python.  They are embedded here as programs
    of a small state-and-exception monad over
    - the attribute dictionary of [self] and the dictionary of local names
      (finite maps from names to values),
    - the chronological list of calls made to the vendor driver [ul] and to
      [np.save]/[np.savetxt],
    and over a [world] that fixes what the driver answers.  The numpy array
    operations the scripts use (zeros, slice and strided assignment, item
    assignment, reshape, strided row selection) are list functions. *)

From Stdlib Require Import ZArith QArith Qround Lia DecimalString.
From stdpp Require Import base list strings gmap.

Local Open Scope Z_scope.

(** ** Exceptions and results *)

Inductive exn :=
| NameError (name : string)
| AttributeError (name : string)
| TypeError
| IndexError
| ValueError
| ULError (code : Z)
| OSError.

Inductive result (A : Type) :=
| Ok (a : A)
| Raise (e : exn).
Arguments Ok {A} a.
Arguments Raise {A} e.

(** ** Floating point

    The scripts compute with IEEE doubles.  The model keeps the float type
    abstract: what it needs are the two constants written in the source, the
    sum [lag_time + duration], the composite [np.floor(x * r).astype('int')]
    for an integer rate [r], and the quotient of an integer by the integer
    rate the driver reports. *)

Class FloatOps (F : Type) := {
  f_zero : F;                       (* 0.0, the fill value of np.zeros *)
  f_five : F;                       (* 5. , the active drive voltage *)
  f_add : F -> F -> F;               (* x + y *)
  floor_scaled : F -> Z -> Z;        (* np.floor(x * r).astype('int') *)
  floor_quot : Z -> Z -> Z;          (* np.floor(i / c).astype('int') *)
  int_div : Z -> Z -> F;             (* np.int64(k) / r *)
  parse_float : string -> option F  (* float(s); None is a ValueError *)
}.

(** Exact rational arithmetic is one instance; it is the one used for the
    worked scenarios, where every product is an exact small integer.  Its
    [parse_float] reads decimal integer literals only. *)
#[export] Instance Q_FloatOps : FloatOps Q := {|
  f_zero := 0%Q;
  f_five := 5%Q;
  f_add := Qplus;
  floor_scaled := fun x r => Qfloor (x * inject_Z r);
  floor_quot := fun i c => Qfloor (inject_Z i / inject_Z c);
  int_div := fun k r => (inject_Z k / inject_Z r)%Q;
  parse_float := fun s =>
    match DecimalString.NilZero.int_of_string s with
    | Some d => Some (inject_Z (Z.of_int d))
    | None => None
    end
|}.

(** ** numpy arrays as lists *)

Module np.
Section Arrays.
Context {A : Type}.

(** [np.zeros(n)] (with fill value [x]): a negative length is refused. *)
Definition full (n : Z) (x : A) : result (list A) :=
  if n <? 0 then Raise ValueError else Ok (replicate (Z.to_nat n) x).

(** Bound normalisation of a slice [a[start:stop]] of step 1: a negative
    bound counts from the end, and both are clipped to [0, len]. *)
Definition clip_index (len i : Z) : Z :=
  if i <? 0 then Z.max 0 (i + len) else Z.min i len.

(** [a[start:stop] = x] for a scalar [x]. *)
Definition slice_fill (a : list A) (start stop : Z) (x : A) : list A :=
  let len := Z.of_nat (length a) in
  let lo := Z.to_nat (clip_index len start) in
  let hi := Z.to_nat (clip_index len stop) in
  take lo a ++ replicate (hi - lo)%nat x ++ drop (lo + (hi - lo))%nat a.

(** Elements at positions [skip], [skip + k + 1], [skip + 2 (k + 1)], ... *)
Fixpoint every (k skip : nat) (a : list A) : list A :=
  match a with
  | [] => []
  | x :: a' =>
      match skip with
      | O => x :: every k k a'
      | S s => every k s a'
      end
  end.

(** [a[::k]].  A zero step is refused; a negative step walks from the end. *)
Definition step_view (a : list A) (k : Z) : result (list A) :=
  if k =? 0 then Raise ValueError
  else if 0 <? k then Ok (every (Z.to_nat k - 1) 0 a)
  else Ok (every (Z.to_nat (- k) - 1) 0 (rev a)).

(** Overwrite the positions selected by [every] with the elements of [b]. *)
Fixpoint every_write (k skip : nat) (a b : list A) : list A :=
  match a with
  | [] => []
  | x :: a' =>
      match skip with
      | O =>
          match b with
          | y :: b' => y :: every_write k k a' b'
          | [] => x :: a'
          end
      | S s => x :: every_write k s a' b
      end
  end.

(** [a[::k] = b] for a one-dimensional [b]: [b] must have as many elements
    as the view, or exactly one (which is then broadcast). *)
Definition step_assign (a : list A) (k : Z) (b : list A) : result (list A) :=
  match step_view a k with
  | Raise e => Raise e
  | Ok view =>
      let n := length view in
      let src :=
        if Nat.eqb (length b) n then Some b
        else match b with
             | [y] => Some (replicate n y)
             | _ => None
             end in
      match src with
      | None => Raise ValueError
      | Some b' =>
          if 0 <? k then Ok (every_write (Z.to_nat k - 1) 0 a b')
          else Ok (rev (every_write (Z.to_nat (- k) - 1) 0 (rev a) b'))
      end
  end.

(** Position of index [i] in an array of length [len]: negative indices
    count from the end, anything outside [-len, len) is an IndexError. *)
Definition item_index (len i : Z) : result nat :=
  if (0 <=? i) && (i <? len) then Ok (Z.to_nat i)
  else if (- len <=? i) && (i <? 0) then Ok (Z.to_nat (i + len))
  else Raise IndexError.

(** [a[i] = x] *)
Definition setitem (a : list A) (i : Z) (x : A) : result (list A) :=
  match item_index (Z.of_nat (length a)) i with
  | Ok n => Ok (<[n := x]> a)
  | Raise e => Raise e
  end.

(** [a[i]] *)
Definition getitem (a : list A) (i : Z) : result A :=
  match item_index (Z.of_nat (length a)) i with
  | Ok n => match a !! n with Some x => Ok x | None => Raise IndexError end
  | Raise e => Raise e
  end.

(** [rows] consecutive chunks of [c] elements. *)
Fixpoint chunks (c rows : nat) (a : list A) : list (list A) :=
  match rows with
  | O => []
  | S r => take c a :: chunks c r (drop c a)
  end.

(** [a.reshape(-1, c)]: the column count must be positive and divide the
    size. *)
Definition reshape (a : list A) (c : Z) : result (list (list A)) :=
  let len := Z.of_nat (length a) in
  if c <=? 0 then Raise ValueError
  else if len mod c =? 0 then Ok (chunks (Z.to_nat c) (Z.to_nat (len / c)) a)
  else Raise ValueError.

(** The flat (row-major) view of a matrix, [m.ravel()]. *)
Definition ravel (m : list (list A)) : list A := concat m.

(** Element [(r, c)] of a matrix. *)
Definition at2 (m : list (list A)) (r c : nat) : option A :=
  m !! r ≫= fun row => row !! c.
End Arrays.

(** [np.arange(n)] *)
Definition arange (n : Z) : list Z := seqZ 0 n.

(** [for i in idx: acc = body(i, acc)], stopping at the first exception. *)
Fixpoint for_each {S : Type} (idx : list Z) (body : Z -> S -> result S)
    (acc : S) : result S :=
  match idx with
  | [] => Ok acc
  | i :: rest =>
      match body i acc with
      | Ok acc' => for_each rest body acc'
      | Raise e => Raise e
      end
  end.
End np.

(** ** Values, driver calls and the world *)

Definition descriptor := string.   (* a DaqDeviceDescriptor *)
Definition handle := nat.          (* a memory handle returned by the driver *)

Section Machine.
Context {F : Type} {float_ops : FloatOps F}.

(** The Python values the three scripts bind to names. *)
Inductive value :=
| VNone
| VInt (z : Z)
| VFloat (x : F)
| VStr (s : string)
| VGlobal (name : string)          (* a module or class bound at module level *)
| VDevices (ds : list descriptor)  (* the device inventory *)
| VInfo (board : Z)                (* DaqDeviceInfo, AiInfo or AoInfo of a board *)
| VRange (r : Z)                   (* a ULRange *)
| VHandle (h : handle)             (* a memory handle, or a ctypes pointer to it *)
| VRaw (a : list Z)                (* numpy view of the unsigned-short buffer *)
| VVec (a : list F)                (* one-dimensional float64 array *)
| VMat (m : list (list F)).        (* two-dimensional float64 array *)

(** Calls that leave the process: the driver [ul], the device-info
    queries, and the file writers. *)
Inductive call :=
| IgnoreInstacal
| GetDaqDeviceInventory
| CreateDaqDevice (board : Z) (d : descriptor)
| DaqDeviceInfo (board : Z)
| AiSupportedRanges (board : Z)
| AoSupportedRanges (board : Z)
| AInputMode (board : Z)                       (* SINGLE_ENDED *)
| WinBufAlloc (count : Z)
| ScaledWinBufAlloc (count : Z)
| ScaledWinArrayToBuf (data : list F) (h : handle) (first count : Z)
| AOutScan (board lo hi count rate range : Z) (h : handle)  (* BACKGROUND | SCALEDATA *)
| AInScan (board lo hi count rate range : Z) (h : handle)
| NpSave (fname : string) (v : value)
| NpSavetxt (fname : string) (v : value)
| WinBufFree (h : handle)
| StopBackground (board : Z).                  (* AOFUNCTION *)

(** What the outside answers. *)
Record world := {
  inventory : list descriptor;     (* ul.get_daq_device_inventory *)
  ai_ranges : list Z;              (* ai_info.supported_ranges *)
  ao_ranges : list Z;              (* ao_info.supported_ranges *)
  fails : call -> option exn;      (* the calls that raise, and what *)
  sample : nat -> Z;               (* the k-th code the input scan stores *)
  actual_rate : Z;                 (* the rate ul.a_in_scan returns *)
  to_eng_units : Z -> Z -> Z -> F  (* ul.to_eng_units(board, range, code) *)
}.

(** ** Interpreter state *)
Record state := mkState {
  trace : list call;               (* calls made so far, oldest first *)
  next_handle : handle;            (* next memory handle to hand out *)
  attrs : gmap string value;       (* self.__dict__ *)
  locals : gmap string value;      (* the local names of the running method *)
  globals : list string;           (* names bound at module level *)
  writes : list string             (* local names assigned so far, in order *)
}.

Definition M (A : Type) : Type := state -> result A * state.

Definition ret {A} (a : A) : M A := fun s => (Ok a, s).
Definition raise {A} (e : exn) : M A := fun s => (Raise e, s).
Definition lift {A} (r : result A) : M A := fun s => (r, s).
Definition bind {A B} (m : M A) (k : A -> M B) : M B :=
  fun s =>
    match m s with
    | (Ok a, s') => k a s'
    | (Raise e, s') => (Raise e, s')
    end.
End Machine.

Arguments value : clear implicits.
Arguments call : clear implicits.
Arguments world : clear implicits.
Arguments state : clear implicits.
Arguments M : clear implicits.

Declare Scope py_scope.
Delimit Scope py_scope with py.
Notation "x <- m ;; k" := (bind m (fun x => k))
  (at level 100, m at next level, right associativity) : py_scope.
Notation "m ;; k" := (bind m (fun _ => k))
  (at level 100, right associativity) : py_scope.

Section Primitives.
Context {F : Type} {float_ops : FloatOps F}.
Local Open Scope py_scope.
#[local] Abbreviation value := (value F).
#[local] Abbreviation state := (state F).
#[local] Abbreviation M := (M F).

Definition local_of (s : state) (x : string) : option value := locals s !! x.
Definition attr_of (s : state) (x : string) : option value := attrs s !! x.

(** Reading a name: the local namespace first, then the module's.  The
    names the import statements bind ([ul], [np], [ctypes], the enums) are
    used by the scripts only to reach the operations modelled here and are
    taken as resolved; the module namespace matters for every other name,
    which is a NameError unless it is bound there. *)
Definition load (x : string) : M value :=
  fun s =>
    match local_of s x with
    | Some v => (Ok v, s)
    | None =>
        if bool_decide (x ∈ globals s) then (Ok (VGlobal x), s)
        else (Raise (NameError x), s)
    end.

(** [x = v] *)
Definition store (x : string) (v : value) : M unit :=
  fun s =>
    (Ok tt, mkState (trace s) (next_handle s) (attrs s)
                    (<[x := v]> (locals s)) (globals s) (writes s ++ [x])).

(** [self.x] *)
Definition getattr (x : string) : M value :=
  fun s =>
    match attr_of s x with
    | Some v => (Ok v, s)
    | None => (Raise (AttributeError x), s)
    end.

(** [self.x = v] *)
Definition setattr (x : string) (v : value) : M unit :=
  fun s =>
    (Ok tt, mkState (trace s) (next_handle s) (<[x := v]> (attrs s))
                    (locals s) (globals s) (writes s)).

(** A module-level assignment. *)
Definition setglobal (x : string) : M unit :=
  fun s =>
    (Ok tt, mkState (trace s) (next_handle s) (attrs s) (locals s)
                    (x :: globals s) (writes s)).

(** An outside call: it raises what the world says, or is recorded. *)
Definition io (w : world F) (c : call F) : M unit :=
  fun s =>
    match fails w c with
    | Some e => (Raise e, s)
    | None =>
        (Ok tt, mkState (trace s ++ [c]) (next_handle s) (attrs s)
                        (locals s) (globals s) (writes s))
    end.

(** The handle a successful allocation returns. *)
Definition fresh_handle : M handle :=
  fun s =>
    (Ok (next_handle s),
     mkState (trace s) (S (next_handle s)) (attrs s) (locals s)
             (globals s) (writes s)).

(** Entering a method: a fresh local namespace holding the arguments. *)
Definition in_frame {A} (args : list (string * value)) (body : M A) : M A :=
  fun s =>
    body (mkState (trace s) (next_handle s) (attrs s) (list_to_map args)
                  (globals s) []).

(** The model is typed where Python is not: a value of another shape than
    the one an operation of the scripts is applied to is a TypeError. *)
Definition as_int (v : value) : M Z :=
  match v with VInt z => ret z | _ => raise TypeError end.
Definition as_float (v : value) : M F :=
  match v with VFloat x => ret x | _ => raise TypeError end.
Definition as_str (v : value) : M string :=
  match v with VStr x => ret x | _ => raise TypeError end.
Definition as_devices (v : value) : M (list descriptor) :=
  match v with VDevices x => ret x | _ => raise TypeError end.
Definition as_info (v : value) : M Z :=
  match v with VInfo x => ret x | _ => raise TypeError end.
Definition as_range (v : value) : M Z :=
  match v with VRange x => ret x | _ => raise TypeError end.
Definition as_handle (v : value) : M handle :=
  match v with VHandle x => ret x | _ => raise TypeError end.
Definition as_raw (v : value) : M (list Z) :=
  match v with VRaw x => ret x | _ => raise TypeError end.
Definition as_vec (v : value) : M (list F) :=
  match v with VVec x => ret x | _ => raise TypeError end.
Definition as_array (v : value) : M value :=
  match v with
  | VVec _ | VMat _ => ret v
  | _ => raise TypeError
  end.

(** [np.ctypeslib.as_array(ptr, (count,))]: the first [count] unsigned-short
    codes of the buffer. *)
Definition buffer_view (w : world F) (count : Z) : result (list Z) :=
  if count <? 0 then Raise ValueError
  else Ok ((fun k => sample w k mod 65536) <$> seq 0 (Z.to_nat count)).

(** [len(a)] *)
Definition len {A} (a : list A) : Z := Z.of_nat (length a).
End Primitives.


Section Helpers.
Context {F : Type} {float_ops : FloatOps F}.
Local Open Scope py_scope.
#[local] Abbreviation value := (value F).
#[local] Abbreviation state := (state F).
#[local] Abbreviation M := (M F).

(** In-place mutation of the array bound to [x]: the name is not rebound, so
    nothing is added to [writes]. *)
Definition mutate (x : string) (v : value) : M unit :=
  fun s =>
    (Ok tt, mkState (trace s) (next_handle s) (attrs s)
                    (<[x := v]> (locals s)) (globals s) (writes s)).

(** [MCCInterface()]: [__init__] runs on a fresh object, in a fresh frame. *)
Definition construct {A} (body : M A) : M A :=
  fun s => body (mkState (trace s) (next_handle s) ∅ ∅ (globals s) []).

Definition load_int (x : string) : M Z := v <- load x ;; as_int v.
Definition load_float (x : string) : M F := v <- load x ;; as_float v.
Definition load_str (x : string) : M string := v <- load x ;; as_str v.
Definition load_devices (x : string) : M (list descriptor) :=
  v <- load x ;; as_devices v.
Definition load_handle (x : string) : M handle := v <- load x ;; as_handle v.
Definition load_raw (x : string) : M (list Z) := v <- load x ;; as_raw v.
Definition load_vec (x : string) : M (list F) := v <- load x ;; as_vec v.
Definition load_array (x : string) : M value := v <- load x ;; as_array v.
Definition attr_int (x : string) : M Z := v <- getattr x ;; as_int v.
Definition attr_info (x : string) : M Z := v <- getattr x ;; as_info v.
Definition attr_range (x : string) : M Z := v <- getattr x ;; as_range v.

(** [float(s)] *)
Definition to_float (s : string) : M F :=
  match parse_float s with
  | Some x => ret x
  | None => raise ValueError
  end.

(** The conversion loop shared by the three scripts,

      for i in np.arange(len(np_data_array)):
          voltage_array[pos(i)] = ul.to_eng_units(board, ai_range, np_data_array[i])

    with the reads of [self.board_number], [self.ai_range] and of the two
    array names, which the body does not rebind, taken once.  The loop
    variable [i] is not recorded among the local names. *)
Definition convert_loop (w : world F) (board range : Z) (pos : Z -> Z)
    (raw : list Z) (v : list F) : result (list F) :=
  np.for_each (np.arange (len raw))
    (fun i acc =>
       match np.getitem raw i with
       | Ok code => np.setitem acc (pos i) (to_eng_units w board range code)
       | Raise e => Raise e
       end) v.

(** [voltage_array[::k]] on a one- or two-dimensional array: every k-th
    element, or every k-th row. *)
Definition rows_step (v : value) (k : Z) : result value :=
  match v with
  | VVec a =>
      match np.step_view a k with Ok a' => Ok (VVec a') | Raise e => Raise e end
  | VMat m =>
      match np.step_view m k with Ok m' => Ok (VMat m') | Raise e => Raise e end
  | _ => Raise TypeError
  end.
End Helpers.

(** ** read_2_channels.py *)

Module read_2_channels.
Section Script.
Context {F : Type} {float_ops : FloatOps F} (w : world F).
Local Open Scope py_scope.

Definition module_globals : list string :=
  ["np"; "ul"; "DaqDeviceInfo"; "InterfaceType"; "AnalogInputMode"; "ctypes";
   "MCCInterface"]%string.

(** [MCCInterface.__init__], lines 10-23. *)
Definition init_body : M F unit :=
  io w IgnoreInstacal ;;
  io w GetDaqDeviceInventory ;;
  store "devices" (VDevices (inventory w)) ;;
  setattr "board_number" (VInt 0) ;;
  board <- attr_int "board_number" ;;
  devices <- load_devices "devices" ;;
  d <- lift (np.getitem devices 0) ;;
  io w (CreateDaqDevice board d) ;;
  setattr "low_channel" (VInt 0) ;;
  setattr "high_channel" (VInt 1) ;;
  board <- attr_int "board_number" ;;
  io w (DaqDeviceInfo board) ;;
  setattr "device_info" (VInfo board) ;;
  info <- attr_info "device_info" ;;
  setattr "ai_info" (VInfo info) ;;
  info <- attr_info "ai_info" ;;
  io w (AiSupportedRanges info) ;;
  r <- lift (np.getitem (ai_ranges w) 0) ;;
  setattr "ai_range" (VRange r) ;;
  board <- attr_int "board_number" ;;
  io w (AInputMode board).

Definition init : M F unit := construct init_body.

(** [MCCInterface.measure], lines 25-51. *)
Definition measure_body : M F unit :=
  store "rate" (VInt 10000) ;;
  store "points_per_channel" (VInt 20000) ;;
  p <- load_int "points_per_channel" ;;
  store "total_count" (VInt (p * 2)) ;;
  (* allocate memory buffer *)
  n <- load_int "total_count" ;;
  io w (WinBufAlloc n) ;;
  h <- fresh_handle ;;
  store "memhandle" (VHandle h) ;;
  h <- load_handle "memhandle" ;;
  store "data_array" (VHandle h) ;;
  (* scan *)
  board <- attr_int "board_number" ;;
  lo <- attr_int "low_channel" ;;
  hi <- attr_int "high_channel" ;;
  n <- load_int "total_count" ;;
  rate <- load_int "rate" ;;
  range <- attr_range "ai_range" ;;
  h <- load_handle "memhandle" ;;
  io w (AInScan board lo hi n rate range h) ;;
  (* convert to numpy array *)
  _ <- load_handle "data_array" ;;
  n <- load_int "total_count" ;;
  raw <- lift (buffer_view w n) ;;
  store "np_data_array" (VRaw raw) ;;
  (* convert from integer to volts *)
  raw <- load_raw "np_data_array" ;;
  z <- lift (np.full (len raw) f_zero) ;;
  store "voltage_array" (VVec z) ;;
  raw <- load_raw "np_data_array" ;;
  v <- load_vec "voltage_array" ;;
  board <- attr_int "board_number" ;;
  range <- attr_range "ai_range" ;;
  v' <- lift (convert_loop w board range (fun i => i) raw v) ;;
  mutate "voltage_array" (VVec v') ;;
  f <- load_str "outfname" ;;
  a <- load_array "voltage_array" ;;
  io w (NpSave f a) ;;
  (* free memory *)
  h <- load_handle "memhandle" ;;
  io w (WinBufFree h) ;;
  store "data_array" VNone.

Definition measure (outfname : string) : M F unit :=
  in_frame [("outfname"%string, VStr outfname)] measure_body.
End Script.
End read_2_channels.

(** ** read_4_channels_and_output.py *)

Module read_4_channels_and_output.
Section Script.
Context {F : Type} {float_ops : FloatOps F} (w : world F).
Local Open Scope py_scope.

Definition module_globals : list string :=
  ["np"; "ul"; "DaqDeviceInfo"; "InterfaceType"; "AnalogInputMode";
   "ScanOptions"; "FunctionType"; "ctypes"; "MCCInterface"]%string.

(** [MCCInterface.__init__], lines 16-34. *)
Definition init_body : M F unit :=
  io w IgnoreInstacal ;;
  io w GetDaqDeviceInventory ;;
  store "devices" (VDevices (inventory w)) ;;
  setattr "board_number" (VInt 0) ;;
  board <- attr_int "board_number" ;;
  devices <- load_devices "devices" ;;
  d <- lift (np.getitem devices 0) ;;
  io w (CreateDaqDevice board d) ;;
  setattr "in_low_channel" (VInt 0) ;;
  setattr "in_high_channel" (VInt 3) ;;
  setattr "out_low_channel" (VInt 0) ;;
  setattr "out_high_channel" (VInt 0) ;;
  board <- attr_int "board_number" ;;
  io w (DaqDeviceInfo board) ;;
  setattr "device_info" (VInfo board) ;;
  info <- attr_info "device_info" ;;
  setattr "ai_info" (VInfo info) ;;
  info <- attr_info "ai_info" ;;
  io w (AiSupportedRanges info) ;;
  r <- lift (np.getitem (ai_ranges w) 0) ;;
  setattr "ai_range" (VRange r) ;;
  info <- attr_info "device_info" ;;
  setattr "ao_info" (VInfo info) ;;
  info <- attr_info "ao_info" ;;
  io w (AoSupportedRanges info) ;;
  r <- lift (np.getitem (ao_ranges w) 0) ;;
  setattr "ao_range" (VRange r) ;;
  board <- attr_int "board_number" ;;
  io w (AInputMode board).

Definition init : M F unit := construct init_body.

(** [MCCInterface.measure], lines 36-84. *)
Definition measure_body : M F unit :=
  store "ain_rate" (VInt 10000) ;;
  store "points_per_channel" (VInt 300000) ;;
  p <- load_int "points_per_channel" ;;
  store "total_count" (VInt (p * 4)) ;;
  (* allocate memory buffer for input *)
  n <- load_int "total_count" ;;
  io w (WinBufAlloc n) ;;
  h <- fresh_handle ;;
  store "memhandle" (VHandle h) ;;
  h <- load_handle "memhandle" ;;
  store "data_array" (VHandle h) ;;
  (* set up output *)
  store "aout_rate" (VInt 100) ;;
  store "aout_duration" (VInt 30) ;;
  r <- load_int "aout_rate" ;;
  d <- load_int "aout_duration" ;;
  store "aout_pts" (VInt (r * d)) ;;
  n <- load_int "aout_pts" ;;
  z <- lift (np.full n f_zero) ;;
  store "output_data" (VVec z) ;;
  a <- load_vec "output_data" ;;
  mutate "output_data" (VVec (np.slice_fill a 100 200 f_five)) ;;
  a <- load_vec "output_data" ;;
  mutate "output_data" (VVec (np.slice_fill a 300 400 f_five)) ;;
  (* allocate a buffer for the output *)
  n <- load_int "aout_pts" ;;
  io w (ScaledWinBufAlloc n) ;;
  h <- fresh_handle ;;
  store "output_handle" (VHandle h) ;;
  (* pointer to the output data *)
  a <- load_vec "output_data" ;;
  store "output_ptr" (VVec a) ;;
  a <- load_vec "output_ptr" ;;
  h <- load_handle "output_handle" ;;
  n <- load_int "aout_pts" ;;
  io w (ScaledWinArrayToBuf a h 0 n) ;;
  (* start analog output in background mode *)
  store "ao_options" (VGlobal "ScanOptions") ;;
  board <- attr_int "board_number" ;;
  lo <- attr_int "out_low_channel" ;;
  hi <- attr_int "out_high_channel" ;;
  n <- load_int "aout_pts" ;;
  rate <- load_int "aout_rate" ;;
  range <- attr_range "ao_range" ;;
  h <- load_handle "output_handle" ;;
  _ <- load "ao_options" ;;
  io w (AOutScan board lo hi n rate range h) ;;
  (* scan *)
  board <- attr_int "board_number" ;;
  lo <- attr_int "in_low_channel" ;;
  hi <- attr_int "in_high_channel" ;;
  n <- load_int "total_count" ;;
  rate <- load_int "ain_rate" ;;
  range <- attr_range "ai_range" ;;
  h <- load_handle "memhandle" ;;
  io w (AInScan board lo hi n rate range h) ;;
  (* convert to numpy array *)
  _ <- load_handle "data_array" ;;
  n <- load_int "total_count" ;;
  raw <- lift (buffer_view w n) ;;
  store "np_data_array" (VRaw raw) ;;
  (* convert from integer to volts *)
  raw <- load_raw "np_data_array" ;;
  z <- lift (np.full (len raw) f_zero) ;;
  store "voltage_array" (VVec z) ;;
  raw <- load_raw "np_data_array" ;;
  v <- load_vec "voltage_array" ;;
  board <- attr_int "board_number" ;;
  range <- attr_range "ai_range" ;;
  v' <- lift (convert_loop w board range (fun i => i) raw v) ;;
  mutate "voltage_array" (VVec v') ;;
  (* reshape *)
  v <- load_vec "voltage_array" ;;
  hi <- attr_int "in_high_channel" ;;
  lo <- attr_int "in_low_channel" ;;
  m <- lift (np.reshape v (hi - lo + 1)) ;;
  store "voltage_array" (VMat m) ;;
  f <- load_str "outfname" ;;
  a <- load_array "voltage_array" ;;
  io w (NpSave f a) ;;
  (* free memory and clean up *)
  h <- load_handle "memhandle" ;;
  io w (WinBufFree h) ;;
  store "data_array" VNone ;;
  board <- attr_int "board_number" ;;
  io w (StopBackground board).

Definition measure (outfname : string) : M F unit :=
  in_frame [("outfname"%string, VStr outfname)] measure_body.
End Script.
End read_4_channels_and_output.

(** ** acquire_thermal_diffusion_mcc.py *)

Module acquire_thermal_diffusion_mcc.
Section Script.
Context {F : Type} {float_ops : FloatOps F} (w : world F).
Local Open Scope py_scope.

Definition module_globals : list string :=
  ["sys"; "np"; "ul"; "DaqDeviceInfo"; "InterfaceType"; "AnalogInputMode";
   "ScanOptions"; "FunctionType"; "ctypes"; "MCCInterface"]%string.

(** [MCCInterface.__init__], lines 42-66.  Line 50 is an expression
    statement: it evaluates
    [self.n_in_channels - self.in_high_channel - self.in_low_channel + 1]
    and drops the value. *)
Definition init_body : M F unit :=
  io w IgnoreInstacal ;;
  io w GetDaqDeviceInventory ;;
  store "devices" (VDevices (inventory w)) ;;
  setattr "board_number" (VInt 0) ;;
  board <- attr_int "board_number" ;;
  devices <- load_devices "devices" ;;
  d <- lift (np.getitem devices 0) ;;
  io w (CreateDaqDevice board d) ;;
  setattr "in_low_channel" (VInt 0) ;;
  setattr "in_high_channel" (VInt 6) ;;
  (* line 50 *)
  n <- attr_int "n_in_channels" ;;
  hi <- attr_int "in_high_channel" ;;
  lo <- attr_int "in_low_channel" ;;
  _ <- ret (n - hi - lo + 1) ;;
  setattr "out_low_channel" (VInt 0) ;;
  setattr "out_high_channel" (VInt 0) ;;
  board <- attr_int "board_number" ;;
  io w (DaqDeviceInfo board) ;;
  setattr "device_info" (VInfo board) ;;
  info <- attr_info "device_info" ;;
  setattr "ai_info" (VInfo info) ;;
  info <- attr_info "ai_info" ;;
  io w (AiSupportedRanges info) ;;
  r <- lift (np.getitem (ai_ranges w) 0) ;;
  setattr "ai_range" (VRange r) ;;
  info <- attr_info "device_info" ;;
  setattr "ao_info" (VInfo info) ;;
  info <- attr_info "ao_info" ;;
  io w (AoSupportedRanges info) ;;
  r <- lift (np.getitem (ao_ranges w) 0) ;;
  setattr "ao_range" (VRange r) ;;
  (* configure ADC and DAC rates in hertz *)
  setattr "adc_rate_per_channel" (VInt 10000) ;;
  setattr "dac_rate" (VInt 100) ;;
  setattr "downsampled_rate" (VInt 100) ;;
  (* configure single-ended input *)
  board <- attr_int "board_number" ;;
  io w (AInputMode board).

Definition init : M F unit := construct init_body.

(** [measure], lines 69-73: the point counts. *)
Definition measure_counts : M F unit :=
  lag <- load_float "lag_time" ;;
  dur <- load_float "duration" ;;
  store "total_meas_time_sec" (VFloat (f_add lag dur)) ;;
  t <- load_float "total_meas_time_sec" ;;
  r <- attr_int "adc_rate_per_channel" ;;
  store "ain_pts_per_channel" (VInt (floor_scaled t r)) ;;
  t <- load_float "total_meas_time_sec" ;;
  r <- attr_int "dac_rate" ;;
  store "aout_pts" (VInt (floor_scaled t r)) ;;
  p <- load_int "ain_pts_per_channel" ;;
  c <- attr_int "n_in_channels" ;;
  store "total_input_pts" (VInt (p * c)).

(** Lines 76-77: the input buffer, sized by the name [total_count]. *)
Definition measure_alloc_input : M F unit :=
  n <- load_int "total_count" ;;
  io w (WinBufAlloc n) ;;
  h <- fresh_handle ;;
  store "input_memhandle" (VHandle h) ;;
  h <- load_handle "input_memhandle" ;;
  store "data_array" (VHandle h).

(** Lines 80-83: the output waveform. *)
Definition measure_waveform : M F unit :=
  n <- load_int "aout_pts" ;;
  z <- lift (np.full n f_zero) ;;
  store "output_data" (VVec z) ;;
  lag <- load_float "lag_time" ;;
  r <- attr_int "dac_rate" ;;
  store "start_idx" (VInt (floor_scaled lag r)) ;;
  start <- load_int "start_idx" ;;
  pulse <- load_float "pulse_length" ;;
  r <- attr_int "dac_rate" ;;
  store "stop_idx" (VInt (start + floor_scaled pulse r)) ;;
  a <- load_vec "output_data" ;;
  start <- load_int "start_idx" ;;
  stop <- load_int "stop_idx" ;;
  mutate "output_data" (VVec (np.slice_fill a start stop f_five)).

(** Lines 86-95: the output buffer and the background output scan. *)
Definition measure_start_output : M F unit :=
  n <- load_int "aout_pts" ;;
  io w (ScaledWinBufAlloc n) ;;
  h <- fresh_handle ;;
  store "output_memhandle" (VHandle h) ;;
  a <- load_vec "output_data" ;;
  store "output_ptr" (VVec a) ;;
  a <- load_vec "output_ptr" ;;
  h <- load_handle "output_memhandle" ;;
  n <- load_int "aout_pts" ;;
  io w (ScaledWinArrayToBuf a h 0 n) ;;
  store "ao_options" (VGlobal "ScanOptions") ;;
  board <- attr_int "board_number" ;;
  lo <- attr_int "out_low_channel" ;;
  hi <- attr_int "out_high_channel" ;;
  n <- load_int "aout_pts" ;;
  rate <- attr_int "dac_rate" ;;
  range <- attr_range "ao_range" ;;
  h <- load_handle "output_memhandle" ;;
  _ <- load "ao_options" ;;
  io w (AOutScan board lo hi n rate range h).

(** Lines 98-103: the blocking input scan and the view on its buffer. *)
Definition measure_scan_input : M F unit :=
  board <- attr_int "board_number" ;;
  lo <- attr_int "in_low_channel" ;;
  hi <- attr_int "in_high_channel" ;;
  n <- load_int "total_input_pts" ;;
  rate <- attr_int "adc_rate_per_channel" ;;
  range <- attr_range "ai_range" ;;
  h <- load_handle "input_memhandle" ;;
  io w (AInScan board lo hi n rate range h) ;;
  store "actual_rate" (VInt (actual_rate w)) ;;
  _ <- load_handle "data_array" ;;
  n <- load_int "total_input_pts" ;;
  raw <- lift (buffer_view w n) ;;
  store "np_data_array" (VRaw raw).

(** Lines 108-114: times and voltages written into one flat array. *)
Definition measure_convert : M F unit :=
  n <- load_int "total_input_pts" ;;
  p <- load_int "ain_pts_per_channel" ;;
  z <- lift (np.full (n + p) f_zero) ;;
  store "voltage_array" (VVec z) ;;
  (* interleave the times *)
  p <- load_int "ain_pts_per_channel" ;;
  rate <- load_int "actual_rate" ;;
  v <- load_vec "voltage_array" ;;
  c <- attr_int "n_in_channels" ;;
  v' <- lift (np.step_assign v c ((fun k => int_div k rate) <$> np.arange p)) ;;
  mutate "voltage_array" (VVec v') ;;
  raw <- load_raw "np_data_array" ;;
  v <- load_vec "voltage_array" ;;
  c <- attr_int "n_in_channels" ;;
  board <- attr_int "board_number" ;;
  range <- attr_range "ai_range" ;;
  v' <- lift (convert_loop w board range
                (fun i => i + 1 + floor_quot i c) raw v) ;;
  mutate "voltage_array" (VVec v').

(** Line 116: the reshape to [n_in_channels + 1] columns. *)
Definition measure_reshape : M F unit :=
  v <- load_vec "voltage_array" ;;
  c <- attr_int "n_in_channels" ;;
  m <- lift (np.reshape v (c + 1)) ;;
  store "voltage_array" (VMat m).

(** Lines 119-121: the three files. *)
Definition measure_save : M F unit :=
  f <- load_str "outfname" ;;
  a <- load_array "voltage_array" ;;
  io w (NpSave (f +:+ ".npy") a) ;;
  f <- load_str "outfname" ;;
  a <- load_array "voltage_array" ;;
  d <- lift (rows_step a 100) ;;
  io w (NpSave (f +:+ "_100Hz.npy") d) ;;
  f <- load_str "outfname" ;;
  a <- load_array "voltage_array" ;;
  d <- lift (rows_step a 100) ;;
  io w (NpSavetxt (f +:+ "_100Hz.txt") d).

(** Lines 124-127: clean-up.  Line 125, which would free the output
    buffer, is commented out in the source. *)
Definition measure_cleanup : M F unit :=
  h <- load_handle "input_memhandle" ;;
  io w (WinBufFree h) ;;
  store "data_array" VNone ;;
  board <- attr_int "board_number" ;;
  io w (StopBackground board).

Definition measure_body : M F unit :=
  measure_counts ;;
  measure_alloc_input ;;
  measure_waveform ;;
  measure_start_output ;;
  measure_scan_input ;;
  measure_convert ;;
  measure_reshape ;;
  measure_save ;;
  measure_cleanup.

Definition measure (pulse_length lag_time duration : F) (outfname : string)
    : M F unit :=
  in_frame [("pulse_length"%string, VFloat pulse_length);
            ("lag_time"%string, VFloat lag_time);
            ("duration"%string, VFloat duration);
            ("outfname"%string, VStr outfname)] measure_body.

(** The [__main__] block, lines 131-133, on [sys.argv = argv]. *)
Definition main (argv : list string) : M F unit :=
  init ;;
  setglobal "interface" ;;
  _ <- load "interface" ;;
  a1 <- lift (np.getitem argv 1) ;;
  pulse <- to_float a1 ;;
  a2 <- lift (np.getitem argv 2) ;;
  lag <- to_float a2 ;;
  a3 <- lift (np.getitem argv 3) ;;
  dur <- to_float a3 ;;
  a4 <- lift (np.getitem argv 4) ;;
  measure pulse lag dur a4.
End Script.
End acquire_thermal_diffusion_mcc.

(** ** Derived notions used in the statements *)

Section Notions.
Context {F : Type} {float_ops : FloatOps F}.

(** The codes the view on the input buffer shows. *)
Definition raw_codes (w : world F) (n : Z) : list Z :=
  (fun k => sample w k mod 65536) <$> seq 0 (Z.to_nat n).

(** The attributes [__init__] of read_2_channels.py leaves on [self]. *)
Definition attrs_2 (range : Z) : gmap string (value F) :=
  <["ai_range" := VRange range]>
    (<["ai_info" := VInfo 0]>
       (<["device_info" := VInfo 0]>
          (<["high_channel" := VInt 1]>
             (<["low_channel" := VInt 0]>
                (<["board_number" := VInt 0]> ∅))))).

(** The attributes [__init__] of read_4_channels_and_output.py leaves on
    [self]. *)
Definition attrs_4 (ai ao : Z) : gmap string (value F) :=
  <["ao_range" := VRange ao]>
    (<["ao_info" := VInfo 0]>
       (<["ai_range" := VRange ai]>
          (<["ai_info" := VInfo 0]>
             (<["device_info" := VInfo 0]>
                (<["out_high_channel" := VInt 0]>
                   (<["out_low_channel" := VInt 0]>
                      (<["in_high_channel" := VInt 3]>
                         (<["in_low_channel" := VInt 0]>
                            (<["board_number" := VInt 0]> ∅))))))))).

(** An interface object as [measure] of acquire_thermal_diffusion_mcc.py
    needs it: the attributes the assignments of its [__init__] bind, and
    [n_in_channels], which no statement of the script assigns, bound to
    [n]. *)
Definition attrs_acquire (n ai ao : Z) : gmap string (value F) :=
  <["n_in_channels" := VInt n]>
    (<["downsampled_rate" := VInt 100]>
       (<["dac_rate" := VInt 100]>
          (<["adc_rate_per_channel" := VInt 10000]>
             (<["ao_range" := VRange ao]>
                (<["ao_info" := VInfo 0]>
                   (<["ai_range" := VRange ai]>
                      (<["ai_info" := VInfo 0]>
                         (<["device_info" := VInfo 0]>
                            (<["out_high_channel" := VInt 0]>
                               (<["out_low_channel" := VInt 0]>
                                  (<["in_high_channel" := VInt 6]>
                                     (<["in_low_channel" := VInt 0]>
                                        (<["board_number" := VInt 0]> ∅))))))))))))).

(** The waveform of read_4_channels_and_output.py: 3000 points, high on
    [100, 200) and on [300, 400). *)
Definition waveform_4 : list F :=
  np.slice_fill
    (np.slice_fill (replicate (Z.to_nat 3000) f_zero) 100 200 f_five)
    300 400 f_five.

(** The matrix read_4_channels_and_output.py saves. *)
Definition matrix_4 (w : world F) (ai : Z) : list (list F) :=
  np.chunks (Z.to_nat 4) (Z.to_nat 300000)
    (to_eng_units w 0 ai <$> raw_codes w 1200000).

(** The device selections found in a list of calls. *)
Definition created (tr : list (call F)) : list (Z * descriptor) :=
  omap (fun c => match c with
                 | CreateDaqDevice b d => Some (b, d)
                 | _ => None
                 end) tr.

(** What a list of calls writes to disk, in order. *)
Definition saved (tr : list (call F)) : list (string * value F) :=
  omap (fun c => match c with
                 | NpSave f v | NpSavetxt f v => Some (f, v)
                 | _ => None
                 end) tr.

(** How often the local name [x] has been assigned. *)
Definition assigned_times (x : string) (s : state F) : nat :=
  length (List.filter (String.eqb x) (writes s)).

(** What an [__init__] does when discovery answers with no device: it
    raises right after the two discovery calls, with [board_number] the
    only attribute set. *)
Definition stops_at_discovery (init : M F unit) (s : state F) : Prop :=
  exists s',
    init s = (Raise IndexError, s')
    /\ trace s' = trace s ++ [IgnoreInstacal; GetDaqDeviceInventory]
    /\ attrs s' = <["board_number" := VInt 0]> ∅.

(** What an [__init__] does when discovery answers with [d] first: the
    only device it creates, if creation is not refused, is [d], as board 0. *)
Definition selects_first (w : world F) (init : M F unit) (s : state F)
    (d : descriptor) : Prop :=
  exists r s' rest,
    init s = (r, s')
    /\ trace s' = trace s ++ [IgnoreInstacal; GetDaqDeviceInventory] ++ rest
    /\ match fails w (CreateDaqDevice 0 d) with
       | Some e => r = Raise e /\ rest = []
       | None => created rest = [(0, d)]
       end.

(** A buffer that is [f_five] on the indices of [start, stop) and [f_zero]
    on all others. *)
Definition pulse_shape (buf : list F) (start stop : Z) : Prop :=
  forall (i : nat) (v : F),
    buf !! i = Some v ->
    v = if decide (start <= Z.of_nat i < stop) then f_five else f_zero.
End Notions.

(** Association-list reading of a chain of dictionary insertions. *)
Fixpoint assoc {V} (l : list (string * V)) (j : string) : option V :=
  match l with
  | [] => None
  | (k, v) :: l' => if String.eqb k j then Some v else assoc l' j
  end.

(** ** A bench for the worked scenarios: exact rationals, one board, codes
    equal to their position, no failing call. *)

Definition bench : world Q := {|
  inventory := ["USB-234"%string];
  ai_ranges := [1];
  ao_ranges := [1];
  fails := fun _ => None;
  sample := fun k => Z.of_nat k;
  actual_rate := 10000;
  to_eng_units := fun _ _ code => inject_Z code
|}.

Definition no_board : world Q := {|
  inventory := [];
  ai_ranges := [1];
  ao_ranges := [1];
  fails := fun _ => None;
  sample := fun k => Z.of_nat k;
  actual_rate := 10000;
  to_eng_units := fun _ _ code => inject_Z code
|}.

(** The state before anything has run, with the given module namespace. *)
Definition fresh {F} (module_globals : list string) : state F :=
  mkState [] 0%nat ∅ ∅ module_globals [].

(** An object with the given attributes in an otherwise fresh state. *)
Definition with_attrs {F} (a : gmap string (value F))
    (module_globals : list string) : state F :=
  mkState [] 0%nat a ∅ module_globals [].

(** A state in the middle of a method: attributes and local names given. *)
Definition mid_method {F} (a l : gmap string (value F)) : state F :=
  mkState [] 0%nat a l [] [].

(** The bench interfaces of the two read scripts, initialised. *)
Definition ready_2 : state Q :=
  (read_2_channels.init bench (fresh read_2_channels.module_globals)).2.

Definition ready_4 : state Q :=
  (read_4_channels_and_output.init bench
     (fresh read_4_channels_and_output.module_globals)).2.

(** A state at the clean-up step of the thermal-diffusion script. *)
Definition at_cleanup : state Q :=
  mid_method (<["board_number" := VInt 0]> ∅)
             (<["input_memhandle" := VHandle 0%nat]> ∅).

(** The thermal-diffusion interface as [measure] needs it, seven input
    channels, before a call of [measure]. *)
Definition patched : state Q :=
  with_attrs (attrs_acquire 7 1 1) acquire_thermal_diffusion_mcc.module_globals.

(** A state at the waveform step, lines 80-83. *)
Definition at_waveform (lag pulse : Q) (aout_pts dac_rate : Z) : state Q :=
  mid_method (<["dac_rate" := VInt dac_rate]> ∅)
             (<["aout_pts" := VInt aout_pts]>
                (<["pulse_length" := VFloat pulse]>
                   (<["lag_time" := VFloat lag]> ∅))).

(** A state at the conversion step, lines 108-114: seven channels, two
    points per channel, fourteen codes in the buffer. *)
Definition at_convert : state Q :=
  mid_method (attrs_acquire 7 1 1)
             (<["np_data_array" := VRaw (raw_codes bench 14)]>
                (<["actual_rate" := VInt 10000]>
                   (<["ain_pts_per_channel" := VInt 2]>
                      (<["total_input_pts" := VInt 14]> ∅)))).

(** A state at the save step, lines 119-121, with a 250-row matrix whose
    row [r] is [[r]]. *)
Definition rows_250 : list (list Q) :=
  (fun r => [inject_Z r]) <$> seqZ 0 250.

Definition at_save : state Q :=
  mid_method ∅
             (<["voltage_array" := VMat rows_250]>
                (<["outfname" := VStr "run"]> ∅)).

(** ** Notions and bench states for the further properties *)

Section RunNotions.
Context {F : Type} {float_ops : FloatOps F}.

(** The outside calls of [measure] of read_2_channels.py, in order, on an
    interface with input range [range] when [h] is the next free handle. *)
Definition calls_2 (w : world F) (f : string) (range : Z) (h : handle)
    : list (call F) :=
  [WinBufAlloc 40000;
   AInScan 0 0 1 40000 10000 range h;
   NpSave f (VVec (to_eng_units w 0 range <$> raw_codes w 40000));
   WinBufFree h].

(** The outside calls of [measure] of read_4_channels_and_output.py. *)
Definition calls_4 (w : world F) (f : string) (ai ao : Z) (h : handle)
    : list (call F) :=
  [WinBufAlloc 1200000;
   ScaledWinBufAlloc 3000;
   ScaledWinArrayToBuf waveform_4 (S h) 0 3000;
   AOutScan 0 0 0 3000 100 ao (S h);
   AInScan 0 0 3 1200000 10000 ai h;
   NpSave f (VMat (matrix_4 w ai));
   WinBufFree h;
   StopBackground 0].

(** The outside calls of the save step of the thermal-diffusion script, for
    the base name [f] and the matrix [m]. *)
Definition calls_save (f : string) (m : list (list F)) : list (call F) :=
  [NpSave (f +:+ ".npy") (VMat m);
   NpSave (f +:+ "_100Hz.npy") (VMat (np.every (Z.to_nat 100 - 1) 0 m));
   NpSavetxt (f +:+ "_100Hz.txt") (VMat (np.every (Z.to_nat 100 - 1) 0 m))].

(** The outside calls of its clean-up step. *)
Definition calls_cleanup (h : handle) (board : Z) : list (call F) :=
  [WinBufFree h; StopBackground board].

(** [made] is the part of [calls] before the first call the world refuses,
    and [r] the outcome: that call's exception, or a normal return when no
    call is refused. *)
Definition runs_until_failure (w : world F) (calls : list (call F))
    (r : result unit) (made : list (call F)) : Prop :=
  exists k : nat,
    made = take k calls
    /\ (forall c, c ∈ made -> fails w c = None)
    /\ match drop k calls with
       | [] => r = Ok tt
       | c :: _ => exists e, fails w c = Some e /\ r = Raise e
       end.
End RunNotions.

(** A board that reports no supported range at all, and one that reports
    no output range. *)
Definition no_ranges : world Q := {|
  inventory := ["USB-234"%string];
  ai_ranges := [];
  ao_ranges := [];
  fails := fun _ => None;
  sample := fun k => Z.of_nat k;
  actual_rate := 10000;
  to_eng_units := fun _ _ code => inject_Z code
|}.

Definition no_output_ranges : world Q := {|
  inventory := ["USB-234"%string];
  ai_ranges := [1];
  ao_ranges := [];
  fails := fun _ => None;
  sample := fun k => Z.of_nat k;
  actual_rate := 10000;
  to_eng_units := fun _ _ code => inject_Z code
|}.

(** A board whose input scan is refused. *)
Definition scan_refused : world Q := {|
  inventory := ["USB-234"%string];
  ai_ranges := [1];
  ao_ranges := [1];
  fails := fun c => match c with
                    | AInScan _ _ _ _ _ _ _ => Some (ULError 29)
                    | _ => None
                    end;
  sample := fun k => Z.of_nat k;
  actual_rate := 10000;
  to_eng_units := fun _ _ code => inject_Z code
|}.

(** Initialised interfaces of the two read scripts, given by their
    attributes. *)
Definition idle_2 : state Q := with_attrs (attrs_2 1) [].
Definition idle_4 : state Q := with_attrs (attrs_4 1 1) [].

(** A state at the waveform step of a 6 s measurement with a 1 s lag and a
    2 s pulse, on the interface with seven channels. *)
Definition at_output : state Q :=
  mid_method (attrs_acquire 7 1 1)
             (<["aout_pts" := VInt 600]>
                (<["pulse_length" := VFloat 2%Q]>
                   (<["lag_time" := VFloat 1%Q]> ∅))).

(** A state at the input scan, fourteen samples requested. *)
Definition at_scan : state Q :=
  mid_method (attrs_acquire 7 1 1)
             (<["data_array" := VHandle 0%nat]>
                (<["input_memhandle" := VHandle 0%nat]>
                   (<["total_input_pts" := VInt 14]> ∅))).

(** A state at the conversion step with one point per channel. *)
Definition at_convert_one : state Q :=
  mid_method (attrs_acquire 7 1 1)
             (<["np_data_array" := VRaw [10; 11; 12; 13; 14; 15; 16]]>
                (<["actual_rate" := VInt 10000]>
                   (<["ain_pts_per_channel" := VInt 1]>
                      (<["total_input_pts" := VInt 7]> ∅)))).

(** A state at the reshape step: sixteen values, seven channels. *)
Definition at_reshape : state Q :=
  mid_method (attrs_acquire 7 1 1)
             (<["voltage_array" := VVec (replicate 16 0%Q)]> ∅).

(** * Properties of the array operations *)

Example slice_fill_ex : np.slice_fill [0;0;0;0;0;0] 1 3 5 = [0;5;5;0;0;0].
Proof. reflexivity. Qed.
Example slice_fill_neg : np.slice_fill [0;0;0;0;0;0] (-2) 3 5 = [0;0;0;0;0;0].
Proof. reflexivity. Qed.
Example slice_fill_neg2 : np.slice_fill [0;0;0;0;0;0] 1 (-2) 5 = [0;5;5;5;0;0].
Proof. reflexivity. Qed.
Example step_view_ex : np.step_view [0;1;2;3;4;5;6] 3 = Ok [0;3;6].
Proof. reflexivity. Qed.
Example step_view_rev : np.step_view [0;1;2;3;4;5;6] (-2) = Ok [6;4;2;0].
Proof. reflexivity. Qed.
Example step_assign_ex : np.step_assign [0;0;0;0;0;0;0] 3 [7;8;9] = Ok [7;0;0;8;0;0;9].
Proof. reflexivity. Qed.
Example step_assign_bad : np.step_assign [0;0;0;0;0;0;0] 3 [7;8] = Raise ValueError.
Proof. reflexivity. Qed.
Example step_assign_bc : np.step_assign [0;0;0;0;0;0;0] 3 [7] = Ok [7;0;0;7;0;0;7].
Proof. reflexivity. Qed.
Example reshape_ex : np.reshape [0;1;2;3;4;5] 2 = Ok [[0;1];[2;3];[4;5]].
Proof. reflexivity. Qed.

Section ArrayFacts.
Context {A : Type}.
Implicit Types (a b : list A) (x : A).

Lemma full_ok (n : Z) x :
  0 <= n -> np.full n x = Ok (replicate (Z.to_nat n) x).
Proof. intros Hn. unfold np.full. destruct (Z.ltb_spec n 0); [lia | done]. Qed.

Lemma clip_index_range (n i : Z) : 0 <= n -> 0 <= np.clip_index n i <= n.
Proof. intros Hn. unfold np.clip_index. destruct (Z.ltb_spec i 0); lia. Qed.

Lemma clip_index_inside (n i : Z) : 0 <= i <= n -> np.clip_index n i = i.
Proof. intros Hi. unfold np.clip_index. destruct (Z.ltb_spec i 0); lia. Qed.

Lemma slice_fill_length a (start stop : Z) x :
  length (np.slice_fill a start stop x) = length a.
Proof.
  unfold np.slice_fill.
  pose proof (clip_index_range (Z.of_nat (length a)) start ltac:(lia)) as Hlo.
  pose proof (clip_index_range (Z.of_nat (length a)) stop ltac:(lia)) as Hhi.
  rewrite !length_app, length_take, length_replicate, length_drop. lia.
Qed.

(** Reading a slice-filled array: [x] between the clipped bounds, the old
    content elsewhere. *)
Lemma slice_fill_lookup a (start stop : Z) x (i : nat) :
  (i < length a)%nat ->
  np.slice_fill a start stop x !! i =
    if decide (np.clip_index (Z.of_nat (length a)) start <= Z.of_nat i
               < np.clip_index (Z.of_nat (length a)) stop)
    then Some x else a !! i.
Proof.
  intros Hi. unfold np.slice_fill.
  pose proof (clip_index_range (Z.of_nat (length a)) start ltac:(lia)) as Hlo.
  pose proof (clip_index_range (Z.of_nat (length a)) stop ltac:(lia)) as Hhi.
  set (lo := np.clip_index _ start) in *. set (hi := np.clip_index _ stop) in *.
  destruct (decide (Z.of_nat i < lo)) as [Hlt | Hge].
  - rewrite lookup_app_l by (rewrite length_take; lia).
    rewrite lookup_take_lt by lia. case_decide; [lia | done].
  - rewrite lookup_app_r by (rewrite length_take; lia).
    rewrite length_take, Nat.min_l by lia.
    destruct (decide (Z.of_nat i < hi)) as [Hin | Hout].
    + rewrite lookup_app_l by (rewrite length_replicate; lia).
      rewrite lookup_replicate_2 by lia. case_decide; [done | lia].
    + rewrite lookup_app_r by (rewrite length_replicate; lia).
      rewrite length_replicate, lookup_drop.
      case_decide; [lia |]. f_equal. lia.
Qed.

Lemma every_lookup (k : nat) a (skip j : nat) :
  np.every k skip a !! j = a !! (skip + j * S k)%nat.
Proof.
  revert skip j. induction a as [| y a IH]; intros skip j; [done |].
  destruct skip as [| s]; simpl.
  - destruct j as [| j]; [done |]. simpl. rewrite IH. done.
  - apply IH.
Qed.

Lemma every_length (k : nat) a (skip : nat) :
  length (np.every k skip a) = ((length a - skip + k) / S k)%nat.
Proof.
  revert skip. induction a as [| y a IH]; intros skip.
  - cbn [np.every length]. symmetry. apply Nat.div_small. lia.
  - destruct skip as [| s]; cbn [np.every length Nat.sub].
    + rewrite IH. destruct (decide (k <= length a)%nat) as [Hle | Hgt].
      * replace (S (length a) + k)%nat with (length a - k + k + 1 * S k)%nat by lia.
        rewrite Nat.div_add by lia. lia.
      * rewrite Nat.div_small by lia.
        replace (S (length a) + k)%nat with (length a + 1 * S k)%nat by lia.
        rewrite Nat.div_add by lia. rewrite Nat.div_small by lia. done.
    + rewrite IH. done.
Qed.

Lemma chunks_length (c rows : nat) a : length (np.chunks c rows a) = rows.
Proof. revert a. induction rows as [| r IH]; intros a; simpl; by rewrite ?IH. Qed.

Lemma chunks_lookup (c rows : nat) a (r : nat) :
  (r < rows)%nat -> np.chunks c rows a !! r = Some (take c (drop (r * c) a)).
Proof.
  revert a r. induction rows as [| n IH]; intros a r Hr; [lia |].
  destruct r as [| r]; simpl; [done |].
  rewrite IH by lia. rewrite drop_drop. do 3 f_equal; lia.
Qed.

Lemma chunks_concat (c rows : nat) a :
  concat (np.chunks c rows a) = take (rows * c) a.
Proof.
  revert a. induction rows as [| n IH]; intros a; simpl; [done |].
  rewrite IH. apply take_take_drop.
Qed.

Lemma reshape_ok a (c rows : Z) :
  0 < c -> 0 <= rows -> Z.of_nat (length a) = c * rows ->
  np.reshape a c = Ok (np.chunks (Z.to_nat c) (Z.to_nat rows) a).
Proof.
  intros Hc Hrows Hlen. unfold np.reshape. rewrite Hlen.
  destruct (Z.leb_spec c 0); [lia |].
  rewrite Z.mul_comm, Z_mod_mult, Z.div_mul by lia. done.
Qed.
End ArrayFacts.

(** * The conversion loop *)

Section Conversion.
Context {F : Type} {float_ops : FloatOps F}.

Lemma item_index_inside (n i : Z) : 0 <= i < n -> np.item_index n i = Ok (Z.to_nat i).
Proof.
  intros Hi. unfold np.item_index.
  destruct (Z.leb_spec 0 i); [| lia]. destruct (Z.ltb_spec i n); [done | lia].
Qed.

Lemma getitem_inside {A} (a : list A) (k : nat) (x : A) :
  a !! k = Some x -> np.getitem a (Z.of_nat k) = Ok x.
Proof.
  intros Hx. unfold np.getitem. pose proof (lookup_lt_Some _ _ _ Hx).
  rewrite item_index_inside by lia. by rewrite Nat2Z.id, Hx.
Qed.

Lemma setitem_inside {A} (a : list A) (k : nat) (x : A) :
  (k < length a)%nat -> np.setitem a (Z.of_nat k) x = Ok (<[k := x]> a).
Proof.
  intros Hk. unfold np.setitem.
  rewrite item_index_inside by lia. by rewrite Nat2Z.id.
Qed.

Lemma convert_loop_from (w : world F) (board range : Z) (raw : list Z) :
  forall (m k : nat) (acc : list F),
    (k + m)%nat = length raw -> length acc = length raw ->
    np.for_each (seqZ (Z.of_nat k) (Z.of_nat m))
      (fun i acc =>
         match np.getitem raw i with
         | Ok code => np.setitem acc i (to_eng_units w board range code)
         | Raise e => Raise e
         end) acc
    = Ok (take k acc ++ (to_eng_units w board range <$> drop k raw)).
Proof.
  induction m as [| m IH]; intros k acc Hk Hacc.
  - simpl. rewrite take_ge, drop_ge by lia. by rewrite app_nil_r.
  - rewrite seqZ_cons by lia. cbn [np.for_each].
    destruct (lookup_lt_is_Some_2 raw k ltac:(lia)) as [code Hcode].
    rewrite (getitem_inside _ _ _ Hcode), setitem_inside by lia.
    replace (Z.succ (Z.of_nat k)) with (Z.of_nat (S k)) by lia.
    replace (Z.pred (Z.of_nat (S m))) with (Z.of_nat m) by lia.
    rewrite IH by (rewrite ?length_insert; lia).
    rewrite (drop_S raw code k Hcode).
    rewrite (take_S_r _ _ _ (list_lookup_insert_eq acc k _ ltac:(lia))).
    rewrite take_insert_ge by lia.
    rewrite <- app_assoc. done.
Qed.

(** On a zero-initialised array of the buffer's length, the loop of the two
    read scripts converts every code in place. *)
Lemma convert_loop_id (w : world F) (board range : Z) (raw : list Z) (z : F) :
  convert_loop w board range (fun i => i) raw (replicate (length raw) z)
  = Ok (to_eng_units w board range <$> raw).
Proof.
  unfold convert_loop, np.arange, len.
  rewrite (convert_loop_from w board range raw (length raw) 0)
    by (rewrite ?length_replicate; lia).
  by rewrite take_0, drop_0.
Qed.

(** A strided assignment whose right-hand side has neither the length of
    the view nor length one is refused. *)
Lemma step_assign_mismatch {A} (a b : list A) (k : Z) :
  0 < k ->
  length b <> length (np.every (Z.to_nat k - 1) 0 a) ->
  (2 <= length b)%nat ->
  np.step_assign a k b = Raise ValueError.
Proof.
  intros Hk Hne Hb. unfold np.step_assign, np.step_view.
  destruct (Z.eqb_spec k 0); [lia |]. destruct (Z.ltb_spec 0 k); [| lia].
  destruct (Nat.eqb_spec (length b) (length (np.every (Z.to_nat k - 1) 0 a))); [done |].
  destruct b as [| y [| y' b]]; simpl in Hb; try lia; done.
Qed.

Lemma getitem_nil {A} (i : Z) : np.getitem (@nil A) i = Raise IndexError.
Proof.
  unfold np.getitem, np.item_index.
  change (Z.of_nat (length (@nil A))) with 0.
  destruct (Z.leb_spec 0 i), (Z.ltb_spec i 0), (Z.leb_spec (- 0) i);
    simpl; try done; lia.
Qed.

Lemma getitem_head {A} (x : A) (l : list A) : np.getitem (x :: l) 0 = Ok x.
Proof. apply (getitem_inside (x :: l) 0 x). done. Qed.

Lemma buffer_view_ok (w : world F) (n : Z) :
  0 <= n -> buffer_view w n = Ok (raw_codes w n).
Proof.
  intros Hn. unfold buffer_view. destruct (Z.ltb_spec n 0); [lia | done].
Qed.

Lemma raw_codes_length (w : world F) (n : Z) :
  length (raw_codes w n) = Z.to_nat n.
Proof. unfold raw_codes. by rewrite length_fmap, length_seq. Qed.

Lemma raw_codes_len (w : world F) (n : Z) :
  0 <= n -> Z.of_nat (length (raw_codes w n)) = n.
Proof. intros Hn. rewrite raw_codes_length. lia. Qed.

Lemma full_len {A B} (a : list A) (x : B) :
  np.full (len a) x = Ok (replicate (length a) x).
Proof. unfold len. rewrite full_ok by lia. by rewrite Nat2Z.id. Qed.

Lemma rows_step_mat (m : list (list F)) (k : Z) :
  0 < k -> rows_step (VMat m) k = Ok (VMat (np.every (Z.to_nat k - 1) 0 m)).
Proof.
  intros Hk. unfold rows_step, np.step_view.
  destruct (Z.eqb_spec k 0); [lia |]. destruct (Z.ltb_spec 0 k); [done | lia].
Qed.
End Conversion.

(** * Running the scripts

    A script is run statement by statement: [py_next] evaluates the first
    statement of a sequence on the current state and continues with the
    rest.  Questions to a dictionary are answered by reading the chain of
    insertions as an association list ([py_maps]), questions to the world
    from the hypotheses ([py_facts]), and the array operations by the
    lemmas above ([py_arrays]). *)

Section Running.
Context {F : Type} {float_ops : FloatOps F}.

Lemma bind_ok {A B} (m : M F A) (k : A -> M F B) (s s' : state F) (a : A) :
  m s = (Ok a, s') -> bind m k s = k a s'.
Proof. intros H. unfold bind. by rewrite H. Qed.

Lemma bind_raise {A B} (m : M F A) (k : A -> M F B) (s s' : state F) e :
  m s = (Raise e, s') -> bind m k s = (Raise e, s').
Proof. intros H. unfold bind. by rewrite H. Qed.

Lemma bind_bind {A B C} (m : M F A) (k1 : A -> M F B) (k2 : B -> M F C)
    (s : state F) :
  bind (bind m k1) k2 s = bind m (fun a => bind (k1 a) k2) s.
Proof. unfold bind. destruct (m s) as [[a | e] s1]; reflexivity. Qed.

Lemma lookup_chain {V} (l : list (string * V)) (m : gmap string V) (j : string) :
  foldr (fun p => <[p.1 := p.2]>) m l !! j =
    match assoc l j with Some v => Some v | None => m !! j end.
Proof.
  induction l as [| [k v] l IH]; simpl; [done |].
  destruct (String.eqb_spec k j) as [-> | Hne].
  - apply lookup_insert_eq.
  - rewrite lookup_insert_ne by done. apply IH.
Qed.
End Running.

Ltac py_step :=
  unfold bind, ret, raise, lift, load, store, getattr, setattr, setglobal, io,
    fresh_handle, in_frame, construct, mutate,
    as_int, as_float, as_str, as_devices, as_info, as_range, as_handle,
    as_raw, as_vec, as_array,
    load_int, load_float, load_str, load_devices, load_handle, load_raw,
    load_vec, load_array, attr_int, attr_info, attr_range, to_float,
    local_of, attr_of;
  cbn [trace next_handle attrs locals globals writes
       list_to_map foldr fst snd app].

Ltac reify_chain m :=
  lazymatch m with
  | insert ?k ?v ?m' =>
      lazymatch reify_chain m' with
      | (?l, ?base) => constr:(((k, v) :: l, base))
      end
  | _ =>
      lazymatch type of m with
      | gmap string ?V => constr:((@nil (string * V), m))
      end
  end.

Ltac py_maps :=
  repeat match goal with
         | |- context [ insert ?k ?v ?m !! ?j ] =>
             lazymatch reify_chain (insert k v m) with
             | (?l, ?base) =>
                 change (insert k v m !! j)
                   with (foldr (fun p => <[p.1 := p.2]>) base l !! j);
                 rewrite (lookup_chain l base j);
                 cbn [assoc String.eqb Ascii.eqb Bool.eqb]
             end
         | |- context [ @lookup string _ (gmap string _) _ _ ∅ ] =>
             rewrite lookup_empty
         end.

Ltac py_facts :=
  repeat match goal with
         | H : fails ?w ?c = _ |- context [fails ?w ?c] => rewrite H
         | H : forall c, fails ?w c = _ |- context [fails ?w _] => rewrite H
         | H : attrs ?s !! ?x = _ |- context [attrs ?s !! ?x] => rewrite H
         | H : locals ?s !! ?x = _ |- context [locals ?s !! ?x] => rewrite H
         | H : attrs ?s = _ |- context [attrs ?s] => rewrite H
         | H : locals ?s = _ |- context [locals ?s] => rewrite H
         | H : bool_decide ?P = _ |- context [bool_decide ?P] => rewrite H
         end.

Ltac py_run := repeat (py_step; py_maps; py_facts).

Ltac py_arrays :=
  try rewrite full_len;
  try (rewrite full_ok by lia);
  try (rewrite buffer_view_ok by lia);
  try rewrite convert_loop_id;
  try (rewrite rows_step_mat by lia);
  try rewrite getitem_nil;
  try rewrite getitem_head.

(** Close [m s = (?r, ?s')] once the left-hand side is a result. *)
Ltac py_close :=
  lazymatch goal with
  | |- (Ok _, _) = _ => reflexivity
  | |- (Raise _, _) = _ => reflexivity
  end.

Ltac py_prim := py_run; py_arrays; py_close.

Ltac py_next :=
  rewrite ?bind_bind;
  first [ erewrite bind_ok by py_prim | erewrite bind_raise by py_prim ];
  cbv beta.

(** The same with a lemma of the caller's for the first statement. *)
Ltac py_with tac :=
  rewrite ?bind_bind;
  erewrite bind_ok; [| py_run; tac; [py_close | ..]];
  cbv beta.

Ltac py_with_raise tac :=
  rewrite ?bind_bind;
  erewrite bind_raise; [| py_run; tac; [py_close | ..]].

Ltac py_exec := repeat py_next.

(** Answer the closed questions to the world from the hypotheses, or by
    cases. *)
Ltac py_world_known :=
  repeat match goal with
         | H : fails ?w ?c = _ |- context [fails ?w ?c] => rewrite H; py_run
         end.

Ltac py_world_cases :=
  repeat match goal with
         | H : fails ?w ?c = _ |- context [fails ?w ?c] => rewrite H; py_run
         | |- context [fails ?w ?c] => destruct (fails w c) eqn:?; py_run
         end.

Ltac py_ranges :=
  repeat match goal with
         | |- context [np.getitem (?f ?w) 0] =>
             destruct (f w) eqn:?; rewrite ?getitem_nil, ?getitem_head; py_run
         end.

Ltac trace_norm := cbn [trace]; rewrite <- ?app_assoc; cbn [app].

Ltac selects_finish :=
  eexists _, _, _; split; [reflexivity |]; trace_norm;
  split; [reflexivity | try reflexivity; auto].

(** * Initialisation *)

Section Initialisation.
Context {F : Type} {float_ops : FloatOps F}.

Lemma read_2_stops (w : world F) (s : state F) :
  fails w IgnoreInstacal = None -> fails w GetDaqDeviceInventory = None ->
  inventory w = [] ->
  stops_at_discovery (read_2_channels.init w) s.
Proof.
  intros H1 H2 H3.
  unfold stops_at_discovery, read_2_channels.init, read_2_channels.init_body.
  py_run. py_world_known. rewrite H3, getitem_nil. py_run.
  eexists. split; [reflexivity |]. by trace_norm.
Qed.

Lemma read_4_stops (w : world F) (s : state F) :
  fails w IgnoreInstacal = None -> fails w GetDaqDeviceInventory = None ->
  inventory w = [] ->
  stops_at_discovery (read_4_channels_and_output.init w) s.
Proof.
  intros H1 H2 H3.
  unfold stops_at_discovery, read_4_channels_and_output.init,
    read_4_channels_and_output.init_body.
  py_run. py_world_known. rewrite H3, getitem_nil. py_run.
  eexists. split; [reflexivity |]. by trace_norm.
Qed.

Lemma acquire_stops (w : world F) (s : state F) :
  fails w IgnoreInstacal = None -> fails w GetDaqDeviceInventory = None ->
  inventory w = [] ->
  stops_at_discovery (acquire_thermal_diffusion_mcc.init w) s.
Proof.
  intros H1 H2 H3.
  unfold stops_at_discovery, acquire_thermal_diffusion_mcc.init,
    acquire_thermal_diffusion_mcc.init_body.
  py_run. py_world_known. rewrite H3, getitem_nil. py_run.
  eexists. split; [reflexivity |]. by trace_norm.
Qed.

Lemma read_2_selects (w : world F) (s : state F) d ds :
  fails w IgnoreInstacal = None -> fails w GetDaqDeviceInventory = None ->
  inventory w = d :: ds ->
  selects_first w (read_2_channels.init w) s d.
Proof.
  intros H1 H2 H3.
  unfold selects_first, read_2_channels.init, read_2_channels.init_body.
  py_run. py_world_known. rewrite H3, getitem_head. py_run.
  py_world_cases; py_ranges; py_world_cases; selects_finish.
Qed.

Lemma read_4_selects (w : world F) (s : state F) d ds :
  fails w IgnoreInstacal = None -> fails w GetDaqDeviceInventory = None ->
  inventory w = d :: ds ->
  selects_first w (read_4_channels_and_output.init w) s d.
Proof.
  intros H1 H2 H3.
  unfold selects_first, read_4_channels_and_output.init,
    read_4_channels_and_output.init_body.
  py_run. py_world_known. rewrite H3, getitem_head. py_run.
  py_world_cases; py_ranges; py_world_cases; py_ranges; py_world_cases;
    selects_finish.
Qed.

Lemma acquire_selects (w : world F) (s : state F) d ds :
  fails w IgnoreInstacal = None -> fails w GetDaqDeviceInventory = None ->
  inventory w = d :: ds ->
  selects_first w (acquire_thermal_diffusion_mcc.init w) s d.
Proof.
  intros H1 H2 H3.
  unfold selects_first, acquire_thermal_diffusion_mcc.init,
    acquire_thermal_diffusion_mcc.init_body.
  py_run. py_world_known. rewrite H3, getitem_head. py_run.
  py_world_cases; selects_finish.
Qed.
End Initialisation.


Section InitialisationClaims.
Context {F : Type} {float_ops : FloatOps F}.

(** C9.  In each of the three scripts, when device discovery succeeds and
    returns no device, [__init__] raises (IndexError on [devices[0]]) right
    after the two discovery calls: discovery is asked once, no channel
    attribute is set and no other call is made.  When discovery returns at
    least one device, the only device [__init__] ever creates is the first
    one of the inventory, as board 0. *)
Theorem init_needs_first_device (w : world F) (s : state F) :
  fails w IgnoreInstacal = None ->
  fails w GetDaqDeviceInventory = None ->
  (inventory w = [] ->
     stops_at_discovery (read_2_channels.init w) s
     /\ stops_at_discovery (read_4_channels_and_output.init w) s
     /\ stops_at_discovery (acquire_thermal_diffusion_mcc.init w) s)
  /\ (forall d ds, inventory w = d :: ds ->
        selects_first w (read_2_channels.init w) s d
        /\ selects_first w (read_4_channels_and_output.init w) s d
        /\ selects_first w (acquire_thermal_diffusion_mcc.init w) s d).
Proof.
  intros H1 H2. split.
  - intros H3. split; [| split].
    + by apply read_2_stops.
    + by apply read_4_stops.
    + by apply acquire_stops.
  - intros d ds H3. split; [| split].
    + by apply (read_2_selects w s d ds).
    + by apply (read_4_selects w s d ds).
    + by apply (acquire_selects w s d ds).
Qed.

(** C10.  Constructing the [MCCInterface] of the thermal-diffusion script
    always raises: whatever the world answers, [__init__] ends in an
    exception, and so does the [__main__] block, in the same state, so no
    statement of [measure] runs.  When discovery and device creation succeed
    the exception is the AttributeError of reading [self.n_in_channels],
    which is not bound at that point. *)
Theorem acquire_init_always_raises (w : world F) (s : state F)
    (argv : list string) :
  exists e s',
    acquire_thermal_diffusion_mcc.init w s = (Raise e, s')
    /\ acquire_thermal_diffusion_mcc.main w argv s = (Raise e, s')
    /\ (fails w IgnoreInstacal = None ->
        fails w GetDaqDeviceInventory = None ->
        forall d ds, inventory w = d :: ds ->
        fails w (CreateDaqDevice 0 d) = None ->
        e = AttributeError "n_in_channels"
        /\ attrs s' !! "n_in_channels" = None).
Proof.
  assert (exists e s',
    acquire_thermal_diffusion_mcc.init w s = (Raise e, s')
    /\ (fails w IgnoreInstacal = None ->
        fails w GetDaqDeviceInventory = None ->
        forall d ds, inventory w = d :: ds ->
        fails w (CreateDaqDevice 0 d) = None ->
        e = AttributeError "n_in_channels"
        /\ attrs s' !! "n_in_channels" = None)) as (e & s' & Hinit & Hcause).
  { unfold acquire_thermal_diffusion_mcc.init,
      acquire_thermal_diffusion_mcc.init_body.
    py_run.
    destruct (fails w IgnoreInstacal) eqn:E1; py_run;
      [eexists _, _; split; [reflexivity | intros; discriminate] |].
    destruct (fails w GetDaqDeviceInventory) eqn:E2; py_run;
      [eexists _, _; split; [reflexivity | intros; discriminate] |].
    destruct (inventory w) as [| d ds] eqn:E3;
      rewrite ?getitem_nil, ?getitem_head; py_run;
      [eexists _, _; split; [reflexivity | intros; discriminate] |].
    destruct (fails w (CreateDaqDevice 0 d)) eqn:E4; py_run;
      eexists _, _; (split; [reflexivity |]);
      intros _ _ d' ds' [= <- <-] E4'; [congruence |].
    split; [reflexivity |]. cbn [attrs]. by py_maps. }
  exists e, s'. split; [exact Hinit |]. split; [| exact Hcause].
  unfold acquire_thermal_diffusion_mcc.main.
  by apply bind_raise.
Qed.
End InitialisationClaims.

Lemma init_needs_first_device_witness :
  (stops_at_discovery (read_2_channels.init no_board) (fresh [])
   /\ stops_at_discovery (read_4_channels_and_output.init no_board) (fresh [])
   /\ stops_at_discovery (acquire_thermal_diffusion_mcc.init no_board)
        (fresh []))
  /\ (selects_first bench (read_2_channels.init bench) (fresh []) "USB-234"
      /\ selects_first bench (read_4_channels_and_output.init bench)
           (fresh []) "USB-234"
      /\ selects_first bench (acquire_thermal_diffusion_mcc.init bench)
           (fresh []) "USB-234").
Proof.
  split.
  - apply (proj1 (init_needs_first_device no_board (fresh [])
                    eq_refl eq_refl)).
    reflexivity.
  - apply (proj2 (init_needs_first_device bench (fresh [])
                    eq_refl eq_refl) "USB-234"%string []).
    reflexivity.
Defined.

Lemma acquire_init_always_raises_witness :
  exists s',
    acquire_thermal_diffusion_mcc.init bench
      (fresh acquire_thermal_diffusion_mcc.module_globals)
    = (Raise (AttributeError "n_in_channels"), s')
    /\ acquire_thermal_diffusion_mcc.main bench
         ["acquire_thermal_diffusion_mcc.py"; "2"; "1"; "5"; "run"]%string
         (fresh acquire_thermal_diffusion_mcc.module_globals)
       = (Raise (AttributeError "n_in_channels"), s').
Proof.
  destruct (acquire_init_always_raises bench
              (fresh acquire_thermal_diffusion_mcc.module_globals)
              ["acquire_thermal_diffusion_mcc.py"; "2"; "1"; "5"; "run"]%string)
    as (e & s' & Hinit & Hmain & Hcause).
  destruct (Hcause eq_refl eq_refl "USB-234"%string [] eq_refl eq_refl)
    as [-> _].
  exists s'. split; assumption.
Defined.

(** * The two read scripts *)

Section ReadScripts.
Context {F : Type} {float_ops : FloatOps F}.
#[local] Opaque buffer_view np.full np.slice_fill convert_loop np.reshape
  np.getitem.

Lemma read_2_init_inv (w : world F) (s0 s : state F) :
  read_2_channels.init w s0 = (Ok tt, s) ->
  exists range, attrs s = attrs_2 range /\ next_handle s = next_handle s0.
Proof.
  unfold read_2_channels.init, read_2_channels.init_body.
  py_run. py_world_cases; try discriminate.
  destruct (inventory w) as [| d ds]; rewrite ?getitem_nil, ?getitem_head;
    py_run; [discriminate |].
  py_world_cases; py_ranges; py_world_cases; try discriminate.
  intros [= <-]. eexists. split; reflexivity.
Qed.

(** A complete run of [measure] of read_2_channels.py on an initialised
    interface, when no outside call fails. *)
Lemma read_2_measure_run (w : world F) (s : state F) (f : string) (range : Z) :
  (forall c, fails w c = None) ->
  attrs s = attrs_2 range ->
  exists s',
    read_2_channels.measure w f s = (Ok tt, s')
    /\ trace s' = trace s ++
         [WinBufAlloc 40000;
          AInScan 0 0 1 40000 10000 range (next_handle s);
          NpSave f (VVec (to_eng_units w 0 range <$> raw_codes w 40000));
          WinBufFree (next_handle s)].
Proof.
  intros Hok Hattrs.
  unfold read_2_channels.measure, read_2_channels.measure_body, in_frame,
    attrs_2 in *.
  py_exec. py_run.
  eexists. split; [reflexivity |]. trace_norm. reflexivity.
Qed.

Lemma read_4_init_inv (w : world F) (s0 s : state F) :
  read_4_channels_and_output.init w s0 = (Ok tt, s) ->
  exists ai ao, attrs s = attrs_4 ai ao /\ next_handle s = next_handle s0.
Proof.
  unfold read_4_channels_and_output.init, read_4_channels_and_output.init_body.
  py_run. py_world_cases; try discriminate.
  destruct (inventory w) as [| d ds]; rewrite ?getitem_nil, ?getitem_head;
    py_run; [discriminate |].
  py_world_cases; py_ranges; py_world_cases; py_ranges; py_world_cases;
    try discriminate.
  intros [= <-]. eexists _, _. split; reflexivity.
Qed.

(** A complete run of [measure] of read_4_channels_and_output.py on an
    initialised interface, when no outside call fails. *)
Lemma read_4_measure_run (w : world F) (s : state F) (f : string) (ai ao : Z) :
  (forall c, fails w c = None) ->
  attrs s = attrs_4 ai ao ->
  exists s',
    read_4_channels_and_output.measure w f s = (Ok tt, s')
    /\ trace s' = trace s ++
         [WinBufAlloc 1200000;
          ScaledWinBufAlloc 3000;
          ScaledWinArrayToBuf waveform_4 (S (next_handle s)) 0 3000;
          AOutScan 0 0 0 3000 100 ao (S (next_handle s));
          AInScan 0 0 3 1200000 10000 ai (next_handle s);
          NpSave f (VMat (matrix_4 w ai));
          WinBufFree (next_handle s);
          StopBackground 0]
    /\ locals s' !! "memhandle" = Some (VHandle (next_handle s))
    /\ locals s' !! "output_handle" = Some (VHandle (S (next_handle s))).
Proof.
  intros Hok Hattrs.
  unfold read_4_channels_and_output.measure,
    read_4_channels_and_output.measure_body, in_frame, attrs_4 in *.
  py_exec.
  change (3 - 0 + 1) with 4.
  py_with ltac:(rewrite (reshape_ok _ 4 300000);
                [| lia | lia | rewrite length_fmap; apply raw_codes_len; lia]).
  py_exec. py_run.
  eexists. split; [reflexivity |]. trace_norm.
  split; [reflexivity |]. cbn [locals]. py_maps. split; reflexivity.
Qed.

(** C8, as the code has it.  On an initialised interface and with no
    failing outside call, [measure] of read_4_channels_and_output.py saves
    exactly one object: the converted samples reshaped to four columns.
    [measure] of read_2_channels.py saves exactly one object as well: the
    flat channel-interleaved sequence of the 40000 converted samples, not
    reshaped. *)
Theorem read_scripts_saved_shapes (w : world F) (s0 s : state F) (f : string) :
  (forall c, fails w c = None) ->
  (read_4_channels_and_output.init w s0 = (Ok tt, s) ->
     exists s' calls ai m,
       read_4_channels_and_output.measure w f s = (Ok tt, s')
       /\ trace s' = trace s ++ calls
       /\ np.reshape (to_eng_units w 0 ai <$> raw_codes w 1200000) 4 = Ok m
       /\ saved calls = [(f, VMat m)])
  /\ (read_2_channels.init w s0 = (Ok tt, s) ->
     exists s' calls ai,
       read_2_channels.measure w f s = (Ok tt, s')
       /\ trace s' = trace s ++ calls
       /\ saved calls
          = [(f, VVec (to_eng_units w 0 ai <$> raw_codes w 40000))]).
Proof.
  intros Hok. split; intros Hinit.
  - destruct (read_4_init_inv _ _ _ Hinit) as (ai & ao & Hattrs & _).
    destruct (read_4_measure_run w s f ai ao Hok Hattrs)
      as (s' & Hrun & Htrace & _).
    eexists s', _, ai, _. split; [exact Hrun |]. split; [exact Htrace |].
    split; [| reflexivity].
    rewrite (reshape_ok _ 4 300000);
      [reflexivity | lia | lia | rewrite length_fmap; apply raw_codes_len; lia].
  - destruct (read_2_init_inv _ _ _ Hinit) as (ai & Hattrs & _).
    destruct (read_2_measure_run w s f ai Hok Hattrs) as (s' & Hrun & Htrace).
    eexists s', _, ai. split; [exact Hrun |]. split; [exact Htrace |].
    reflexivity.
Qed.

(** C7, as the code has it.  On an initialised interface and with no
    failing outside call, [measure] of read_4_channels_and_output.py ends
    with freeing the input buffer and then stopping the background output
    scan, and never frees the output buffer.  The clean-up step of the
    thermal-diffusion script, lines 124-127, makes the same two calls and no
    other. *)
Theorem cleanup_frees_input_and_stops_output (w : world F) :
  (forall (s0 s : state F) (f : string),
     (forall c, fails w c = None) ->
     read_4_channels_and_output.init w s0 = (Ok tt, s) ->
     exists s' before h_in h_out,
       read_4_channels_and_output.measure w f s = (Ok tt, s')
       /\ trace s' = trace s ++ before ++ [WinBufFree h_in; StopBackground 0]
       /\ WinBufAlloc 1200000 ∈ before
       /\ locals s' !! "memhandle" = Some (VHandle h_in)
       /\ ScaledWinBufAlloc 3000 ∈ before
       /\ locals s' !! "output_handle" = Some (VHandle h_out)
       /\ WinBufFree h_out ∉ before ++ [WinBufFree h_in; StopBackground 0])
  /\ (forall (s : state F) (h : handle) (b : Z),
       locals s !! "input_memhandle" = Some (VHandle h) ->
       attrs s !! "board_number" = Some (VInt b) ->
       fails w (WinBufFree h) = None ->
       fails w (StopBackground b) = None ->
       exists s',
         acquire_thermal_diffusion_mcc.measure_cleanup w s = (Ok tt, s')
         /\ trace s' = trace s ++ [WinBufFree h; StopBackground b]).
Proof.
  split.
  - intros s0 s f Hok Hinit.
    destruct (read_4_init_inv _ _ _ Hinit) as (ai & ao & Hattrs & _).
    destruct (read_4_measure_run w s f ai ao Hok Hattrs)
      as (s' & Hrun & Htrace & Hin & Hout).
    exists s',
      [WinBufAlloc 1200000; ScaledWinBufAlloc 3000;
       ScaledWinArrayToBuf waveform_4 (S (next_handle s)) 0 3000;
       AOutScan 0 0 0 3000 100 ao (S (next_handle s));
       AInScan 0 0 3 1200000 10000 ai (next_handle s);
       NpSave f (VMat (matrix_4 w ai))],
      (next_handle s), (S (next_handle s)).
    split; [exact Hrun |].
    split; [exact Htrace |].
    split; [apply list_elem_of_here |].
    split; [exact Hin |].
    split; [apply list_elem_of_further, list_elem_of_here |].
    split; [exact Hout |].
    cbn [app]. intros Hfree.
    repeat (apply elem_of_cons in Hfree as [Hfree | Hfree];
            [first [discriminate | injection Hfree; lia] |]).
    by apply elem_of_nil in Hfree.
  - intros s h b Hh Hb Hfree Hstop.
    unfold acquire_thermal_diffusion_mcc.measure_cleanup.
    py_exec. py_run. eexists. split; [reflexivity |]. by trace_norm.
Qed.
End ReadScripts.

(** ** The read scripts on the bench *)

Lemma ready_2_init :
  read_2_channels.init bench (fresh read_2_channels.module_globals)
  = (Ok tt, ready_2).
Proof. vm_compute. reflexivity. Qed.

Lemma ready_4_init :
  read_4_channels_and_output.init bench
    (fresh read_4_channels_and_output.module_globals)
  = (Ok tt, ready_4).
Proof. vm_compute. reflexivity. Qed.

#[local] Opaque ready_2 ready_4.

(** C8, counterexample.  On the bench, [measure] of read_2_channels.py
    saves one object, a one-dimensional array of 40000 values; it saves no
    matrix. *)
Lemma read_2_saves_flat_sequence :
  exists s' calls v,
    read_2_channels.init bench (fresh read_2_channels.module_globals)
      = (Ok tt, ready_2)
    /\ read_2_channels.measure bench "run" ready_2 = (Ok tt, s')
    /\ trace s' = trace ready_2 ++ calls
    /\ saved calls = [("run"%string, VVec v)]
    /\ len v = 40000
    /\ forall m, saved calls <> [("run"%string, VMat m)].
Proof.
  destruct (read_2_init_inv _ _ _ ready_2_init) as (ai & Hattrs & _).
  destruct (read_2_measure_run bench ready_2 "run" ai (fun _ => eq_refl) Hattrs)
    as (s' & Hrun & Htrace).
  eexists s', _, _.
  split; [exact ready_2_init |]. split; [exact Hrun |].
  split; [exact Htrace |]. split; [reflexivity |].
  split.
  - unfold len. rewrite length_fmap. apply raw_codes_len. lia.
  - intros m H. cbv [saved omap] in H. discriminate H.
Qed.

Lemma read_scripts_saved_shapes_witness :
  (exists s' calls ai m,
     read_4_channels_and_output.measure bench "run" ready_4 = (Ok tt, s')
     /\ trace s' = trace ready_4 ++ calls
     /\ np.reshape (to_eng_units bench 0 ai <$> raw_codes bench 1200000) 4
        = Ok m
     /\ saved calls = [("run"%string, VMat m)])
  /\ (exists s' calls ai,
       read_2_channels.measure bench "run" ready_2 = (Ok tt, s')
       /\ trace s' = trace ready_2 ++ calls
       /\ saved calls
          = [("run"%string,
              VVec (to_eng_units bench 0 ai <$> raw_codes bench 40000))]).
Proof.
  split.
  - apply (proj1 (read_scripts_saved_shapes bench
                    (fresh read_4_channels_and_output.module_globals)
                    ready_4 "run" (fun _ => eq_refl))).
    vm_compute. reflexivity.
  - apply (proj2 (read_scripts_saved_shapes bench
                    (fresh read_2_channels.module_globals)
                    ready_2 "run" (fun _ => eq_refl))).
    vm_compute. reflexivity.
Defined.

(** C7, counterexample.  On the bench, [measure] of
    read_4_channels_and_output.py returns normally, having allocated the
    output buffer, and no call of the whole run frees that buffer. *)
Lemma read_4_output_buffer_not_freed :
  exists s' calls h_out,
    read_4_channels_and_output.init bench
      (fresh read_4_channels_and_output.module_globals) = (Ok tt, ready_4)
    /\ read_4_channels_and_output.measure bench "run" ready_4 = (Ok tt, s')
    /\ trace s' = trace ready_4 ++ calls
    /\ ScaledWinBufAlloc 3000 ∈ calls
    /\ locals s' !! "output_handle" = Some (VHandle h_out)
    /\ WinBufFree h_out ∉ calls.
Proof.
  destruct (read_4_init_inv _ _ _ ready_4_init) as (ai & ao & Hattrs & Hnext).
  destruct (read_4_measure_run bench ready_4 "run" ai ao (fun _ => eq_refl) Hattrs)
    as (s' & Hrun & Htrace & _ & Hout).
  cbn [fresh next_handle] in Hnext. rewrite Hnext in Htrace, Hout.
  eexists s', _, _.
  split; [exact ready_4_init |]. split; [exact Hrun |].
  split; [exact Htrace |].
  split; [apply list_elem_of_further, list_elem_of_here |].
  split; [exact Hout |].
  intros Hfree.
  repeat (apply elem_of_cons in Hfree as [Hfree | Hfree];
          [first [discriminate | injection Hfree; lia] |]).
  by apply elem_of_nil in Hfree.
Qed.

Lemma cleanup_frees_input_and_stops_output_witness :
  (exists s' before h_in h_out,
     read_4_channels_and_output.measure bench "run" ready_4 = (Ok tt, s')
     /\ trace s' = trace ready_4 ++ before
                    ++ [WinBufFree h_in; StopBackground 0]
     /\ WinBufAlloc 1200000 ∈ before
     /\ locals s' !! "memhandle" = Some (VHandle h_in)
     /\ ScaledWinBufAlloc 3000 ∈ before
     /\ locals s' !! "output_handle" = Some (VHandle h_out)
     /\ WinBufFree h_out ∉ before ++ [WinBufFree h_in; StopBackground 0])
  /\ (exists s',
       acquire_thermal_diffusion_mcc.measure_cleanup bench at_cleanup
         = (Ok tt, s')
       /\ trace s' = trace at_cleanup
                      ++ [WinBufFree 0%nat; StopBackground 0]).
Proof.
  split.
  - apply (proj1 (cleanup_frees_input_and_stops_output bench)
             (fresh read_4_channels_and_output.module_globals)
             ready_4 "run" (fun _ => eq_refl)).
    vm_compute. reflexivity.
  - apply (proj2 (cleanup_frees_input_and_stops_output bench)
             at_cleanup 0%nat 0); vm_compute; reflexivity.
Defined.

(** * The thermal-diffusion script *)

Section Acquire.
Context {F : Type} {float_ops : FloatOps F}.
#[local] Opaque buffer_view np.full np.slice_fill convert_loop np.reshape
  np.getitem np.step_assign rows_step.

Ltac leaf :=
  eexists _, _; split; [reflexivity |]; cbn [locals]; py_maps;
  repeat split; reflexivity.

(** C4.  Whatever else happens in a call of [measure] of the
    thermal-diffusion script on an interface that carries the two rates,
    when the call ends the name [ain_pts_per_channel] holds
    floor((lag_time + duration) * adc_rate_per_channel), the name [aout_pts]
    holds floor((lag_time + duration) * dac_rate), and each of the two names
    has been assigned exactly once. *)
Theorem measure_point_counts (w : world F) (s : state F)
    (pulse lag dur : F) (f : string) (adc dac : Z) :
  attrs s !! "adc_rate_per_channel" = Some (VInt adc) ->
  attrs s !! "dac_rate" = Some (VInt dac) ->
  exists r s',
    acquire_thermal_diffusion_mcc.measure w pulse lag dur f s = (r, s')
    /\ locals s' !! "ain_pts_per_channel"
       = Some (VInt (floor_scaled (f_add lag dur) adc))
    /\ locals s' !! "aout_pts"
       = Some (VInt (floor_scaled (f_add lag dur) dac))
    /\ assigned_times "ain_pts_per_channel" s' = 1%nat
    /\ assigned_times "aout_pts" s' = 1%nat.
Proof.
  intros Hadc Hdac.
  unfold acquire_thermal_diffusion_mcc.measure, in_frame,
    acquire_thermal_diffusion_mcc.measure_body,
    acquire_thermal_diffusion_mcc.measure_counts,
    acquire_thermal_diffusion_mcc.measure_alloc_input.
  py_exec.
  destruct (bool_decide ("total_count"%string ∈ globals s)) eqn:Hglobal;
    destruct (attrs s !! "n_in_channels") as [[] |] eqn:Hn;
    py_exec; leaf.
Qed.

(** The allocation of line 76 reads [total_count]; on an interface that
    carries what lines 69-73 read, and in a module that does not bind that
    name, [measure] ends there with a NameError, before any outside call. *)
Lemma measure_total_count_unbound (w : world F) (s : state F)
    (pulse lag dur : F) (f : string) (adc dac n : Z) :
  attrs s !! "adc_rate_per_channel" = Some (VInt adc) ->
  attrs s !! "dac_rate" = Some (VInt dac) ->
  attrs s !! "n_in_channels" = Some (VInt n) ->
  bool_decide ("total_count"%string ∈ globals s) = false ->
  exists s',
    acquire_thermal_diffusion_mcc.measure w pulse lag dur f s
      = (Raise (NameError "total_count"), s')
    /\ trace s' = trace s
    /\ locals s' !! "total_input_pts"
       = Some (VInt (floor_scaled (f_add lag dur) adc * n))
    /\ locals s' !! "total_count" = None.
Proof.
  intros Hadc Hdac Hn Hglobal.
  unfold acquire_thermal_diffusion_mcc.measure, in_frame,
    acquire_thermal_diffusion_mcc.measure_body,
    acquire_thermal_diffusion_mcc.measure_counts,
    acquire_thermal_diffusion_mcc.measure_alloc_input.
  py_exec.
  eexists. split; [reflexivity |]. cbn [trace locals]. py_maps.
  repeat split; reflexivity.
Qed.

Lemma pulse_shape_fill (n start stop : Z) :
  0 <= start -> 0 <= stop <= n ->
  pulse_shape
    (np.slice_fill (replicate (Z.to_nat n) (f_zero : F)) start stop f_five)
    start stop.
Proof.
  intros Hstart Hstop i v Hv.
  pose proof (lookup_lt_Some _ _ _ Hv) as Hi.
  rewrite slice_fill_length, length_replicate in Hi.
  rewrite slice_fill_lookup in Hv by (rewrite length_replicate; lia).
  rewrite length_replicate, Z2Nat.id in Hv by lia.
  rewrite (clip_index_inside n stop) in Hv by lia.
  assert (np.clip_index n start <= Z.of_nat i <-> start <= Z.of_nat i) as Hlo.
  { unfold np.clip_index. destruct (Z.ltb_spec start 0); lia. }
  repeat case_decide; try lia.
  - by injection Hv.
  - rewrite lookup_replicate_2 in Hv by lia. by injection Hv.
Qed.

(** C2, as the code has it.  When lines 80-83 run with [aout_pts] = n and
    0 <= floor(lag_time * dac_rate) and
    0 <= floor(lag_time * dac_rate) + floor(pulse_length * dac_rate) <= n,
    the output waveform has n points, equal to the drive voltage on the
    indices of [floor(lag * rate), floor(lag * rate) + floor(pulse * rate))
    and to zero on all others. *)
Theorem waveform_is_a_pulse (s : state F) (lag pulse : F) (n rate : Z) :
  locals s !! "lag_time" = Some (VFloat lag) ->
  locals s !! "pulse_length" = Some (VFloat pulse) ->
  locals s !! "aout_pts" = Some (VInt n) ->
  attrs s !! "dac_rate" = Some (VInt rate) ->
  0 <= floor_scaled lag rate ->
  0 <= floor_scaled lag rate + floor_scaled pulse rate ->
  floor_scaled lag rate + floor_scaled pulse rate <= n ->
  exists buf s',
    acquire_thermal_diffusion_mcc.measure_waveform s = (Ok tt, s')
    /\ locals s' !! "output_data" = Some (VVec buf)
    /\ len buf = n
    /\ pulse_shape buf (floor_scaled lag rate)
         (floor_scaled lag rate + floor_scaled pulse rate).
Proof.
  intros Hlag Hpulse Hn Hrate Hstart Hstop Hfit.
  unfold acquire_thermal_diffusion_mcc.measure_waveform.
  py_exec. py_run.
  eexists _, _. split; [reflexivity |]. cbn [locals]. py_maps.
  split; [reflexivity |]. split.
  - unfold len. rewrite slice_fill_length, length_replicate. lia.
  - apply pulse_shape_fill; lia.
Qed.

(** Lines 108-114 with at least two points per channel and at least one
    channel: the strided assignment of the times selects more positions
    than there are times, and is refused. *)
Lemma convert_refuses_times (w : world F) (s : state F)
    (points channels rate : Z) :
  locals s !! "total_input_pts" = Some (VInt (points * channels)) ->
  locals s !! "ain_pts_per_channel" = Some (VInt points) ->
  locals s !! "actual_rate" = Some (VInt rate) ->
  attrs s !! "n_in_channels" = Some (VInt channels) ->
  2 <= points -> 1 <= channels ->
  exists s',
    acquire_thermal_diffusion_mcc.measure_convert w s = (Raise ValueError, s').
Proof.
  intros Htotal Hpoints Hrate Hchannels Hp Hc.
  unfold acquire_thermal_diffusion_mcc.measure_convert.
  py_next. py_next.
  py_with ltac:(rewrite full_ok by nia).
  py_exec.
  py_with_raise ltac:(rewrite step_assign_mismatch).
  - eexists. reflexivity.
  - lia.
  - rewrite length_fmap. unfold np.arange. rewrite length_seqZ.
    rewrite every_length, length_replicate.
    replace (Z.to_nat (Z.max 0 points)) with (Z.to_nat points) by lia.
    rewrite Z2Nat.inj_add, Z2Nat.inj_mul by nia.
    destruct (Z.to_nat channels) as [| k] eqn:Hk; [lia |].
    replace (S k - 1)%nat with k by lia.
    assert (S (Z.to_nat points)
            <= (Z.to_nat points * S k + Z.to_nat points - 0 + k) / S k)%nat
      as Hle by (apply Nat.div_le_lower_bound; [lia | nia]).
    lia.
  - rewrite length_fmap. unfold np.arange. rewrite length_seqZ. lia.
Qed.

(** C6.  When lines 119-121 run on a matrix [m] and no save fails, three
    files are written: [m] itself, and twice (binary and text) the
    decimated copy [dec], which has ceil(R / 100) rows for the R rows of
    [m], its k-th row being row 100 k of [m]. *)
Theorem decimated_copy_saved (w : world F) (s : state F) (f : string)
    (m : list (list F)) :
  locals s !! "outfname" = Some (VStr f) ->
  locals s !! "voltage_array" = Some (VMat m) ->
  (forall c, fails w c = None) ->
  exists dec s',
    acquire_thermal_diffusion_mcc.measure_save w s = (Ok tt, s')
    /\ trace s' = trace s ++
         [NpSave (f +:+ ".npy") (VMat m);
          NpSave (f +:+ "_100Hz.npy") (VMat dec);
          NpSavetxt (f +:+ "_100Hz.txt") (VMat dec)]
    /\ 100 * (len dec - 1) < len m <= 100 * len dec
    /\ forall k : nat, dec !! k = m !! (k * 100)%nat.
Proof.
  intros Hname Hm Hok.
  unfold acquire_thermal_diffusion_mcc.measure_save.
  py_exec. py_run.
  eexists _, _. split; [reflexivity |]. trace_norm.
  split; [reflexivity |]. split.
  - unfold len. rewrite every_length.
    change (S (Z.to_nat 100 - 1)) with 100%nat.
    change (Z.to_nat 100 - 1)%nat with 99%nat.
    pose proof (Nat.div_mod_eq (length m - 0 + 99) 100) as Hdiv.
    pose proof (Nat.mod_upper_bound (length m - 0 + 99) 100 ltac:(lia)) as Hmod.
    lia.
  - intros k. rewrite every_lookup.
    change (S (Z.to_nat 100 - 1)) with 100%nat. done.
Qed.
End Acquire.

Lemma measure_point_counts_witness :
  exists r s',
    acquire_thermal_diffusion_mcc.measure bench 2%Q 1%Q 5%Q "run" patched = (r, s')
    /\ locals s' !! "ain_pts_per_channel"
       = Some (VInt (floor_scaled (f_add 1%Q 5%Q) 10000))
    /\ locals s' !! "aout_pts" = Some (VInt (floor_scaled (f_add 1%Q 5%Q) 100))
    /\ assigned_times "ain_pts_per_channel" s' = 1%nat
    /\ assigned_times "aout_pts" s' = 1%nat.
Proof.
  apply (measure_point_counts bench patched 2%Q 1%Q 5%Q "run" 10000 100);
    vm_compute; reflexivity.
Defined.

(** C1, at a failing input.  On the bench, [measure(2., 1., 5., "run")] on
    an interface that carries a channel count of 7 computes 420000 input
    points and then raises NameError at the allocation: [total_count] is
    bound neither locally nor in the module, and no buffer is allocated. *)
Theorem measure_allocation_reads_unbound_name :
  exists s',
    acquire_thermal_diffusion_mcc.measure bench 2%Q 1%Q 5%Q "run" patched
      = (Raise (NameError "total_count"), s')
    /\ trace s' = []
    /\ locals s' !! "total_input_pts" = Some (VInt 420000)
    /\ locals s' !! "total_count" = None.
Proof.
  destruct (measure_total_count_unbound bench patched 2%Q 1%Q 5%Q "run"
              10000 100 7) as (s' & Hrun & Htrace & Hpts & Hcount);
    try (vm_compute; reflexivity).
  exists s'. split; [exact Hrun |]. split; [rewrite Htrace; reflexivity |].
  split; [rewrite Hpts; vm_compute; reflexivity | exact Hcount].
Qed.

Lemma waveform_is_a_pulse_witness :
  exists buf s',
    acquire_thermal_diffusion_mcc.measure_waveform
      (at_waveform 1 2 (floor_scaled (f_add 1%Q 5%Q) 10) 10) = (Ok tt, s')
    /\ locals s' !! "output_data" = Some (VVec buf)
    /\ len buf = 60
    /\ pulse_shape buf 10 30.
Proof.
  refine (waveform_is_a_pulse
            (at_waveform 1 2 (floor_scaled (f_add 1%Q 5%Q) 10) 10)
            1%Q 2%Q 60 10 _ _ _ _ _ _ _);
    vm_compute; first [reflexivity | discriminate].
Defined.

(** C2, counterexample.  With lag_time = -1 s, pulse_length = 2 s and a
    500-point buffer at 100 Hz (duration = 6 s), the bound of the claim
    holds (-100 + 200 <= 500), the slice [-100:100] is empty on a 500-point
    array, and the waveform is zero at index 0, which lies in [-100, 100). *)
Lemma waveform_negative_lag :
  exists buf s',
    acquire_thermal_diffusion_mcc.measure_waveform
      (at_waveform (-1) 2 (floor_scaled (f_add (-1)%Q 6%Q) 100) 100)
      = (Ok tt, s')
    /\ locals s' !! "output_data" = Some (VVec buf)
    /\ floor_scaled (-1)%Q 100 + floor_scaled 2%Q 100
       <= floor_scaled (f_add (-1)%Q 6%Q) 100
    /\ ~ pulse_shape buf (floor_scaled (-1)%Q 100)
           (floor_scaled (-1)%Q 100 + floor_scaled 2%Q 100).
Proof.
  eexists _, _. split; [vm_compute; reflexivity |].
  split; [vm_compute; reflexivity |].
  split; [vm_compute; discriminate |].
  intros Hshape. specialize (Hshape 0%nat 0%Q eq_refl).
  vm_compute in Hshape. discriminate Hshape.
Qed.

(** C3, at a failing input.  With seven channels, two points per channel
    and fourteen codes in the buffer, line 110 assigns the two times to
    [voltage_array[::7]], a view of three elements of the 16-element array:
    the assignment is refused with a ValueError, and the array is still all
    zero. *)
Theorem times_interleave_refused :
  exists s',
    acquire_thermal_diffusion_mcc.measure_convert bench at_convert
      = (Raise ValueError, s')
    /\ locals s' !! "voltage_array"
       = Some (VVec (replicate (Z.to_nat 16) 0%Q))
    /\ np.step_view (replicate (Z.to_nat 16) 0%Q) 7 = Ok [0%Q; 0%Q; 0%Q]
    /\ (fun k => int_div k 10000) <$> np.arange 2 = [0 / 10000; 1 / 10000]%Q.
Proof.
  eexists. split; [vm_compute; reflexivity |].
  repeat split; vm_compute; reflexivity.
Qed.

(** C5.  Reshaping a flat sequence of [c * rows] samples to [c] columns
    succeeds, gives [rows] rows, has at [(r, k)] the sample at flat index
    [r * c + k], and its flat view is the sequence again. *)
Theorem reshape_round_trip {A : Type} (a : list A) (c rows : Z) :
  0 < c -> 0 <= rows -> len a = c * rows ->
  exists m,
    np.reshape a c = Ok m
    /\ len m = rows
    /\ (forall r k : nat,
          Z.of_nat r < rows -> Z.of_nat k < c ->
          np.at2 m r k = a !! (r * Z.to_nat c + k)%nat)
    /\ np.ravel m = a.
Proof.
  intros Hc Hrows Hlen. unfold len in *.
  exists (np.chunks (Z.to_nat c) (Z.to_nat rows) a).
  split; [by apply reshape_ok |].
  split; [unfold len; rewrite chunks_length; lia |].
  split.
  - intros r k Hr Hk. unfold np.at2.
    rewrite chunks_lookup by lia. cbn [mbind option_bind].
    rewrite lookup_take_lt by lia. by rewrite lookup_drop.
  - unfold np.ravel. rewrite chunks_concat. apply take_ge. nia.
Qed.

Lemma reshape_round_trip_witness :
  exists m,
    np.reshape [0; 1; 2; 3; 4; 5; 6; 7; 8; 9; 10; 11] 4 = Ok m
    /\ len m = 3
    /\ (forall r k : nat,
          Z.of_nat r < 3 -> Z.of_nat k < 4 ->
          np.at2 m r k
          = [0; 1; 2; 3; 4; 5; 6; 7; 8; 9; 10; 11] !! (r * Z.to_nat 4 + k)%nat)
    /\ np.ravel m = [0; 1; 2; 3; 4; 5; 6; 7; 8; 9; 10; 11].
Proof.
  apply (reshape_round_trip [0; 1; 2; 3; 4; 5; 6; 7; 8; 9; 10; 11] 4 3);
    vm_compute; first [reflexivity | discriminate].
Defined.

(** The scenario of C5: element (2, 3) of the 3-by-4 matrix is the sample
    at flat index 11. *)
Example reshape_scenario :
  np.reshape [0; 1; 2; 3; 4; 5; 6; 7; 8; 9; 10; 11] 4
  = Ok [[0; 1; 2; 3]; [4; 5; 6; 7]; [8; 9; 10; 11]]
  /\ np.at2 [[0; 1; 2; 3]; [4; 5; 6; 7]; [8; 9; 10; 11]] 2 3
     = [0; 1; 2; 3; 4; 5; 6; 7; 8; 9; 10; 11] !! 11%nat.
Proof. split; reflexivity. Qed.

Lemma decimated_copy_saved_witness :
  exists dec s',
    acquire_thermal_diffusion_mcc.measure_save bench at_save = (Ok tt, s')
    /\ trace s' = trace at_save ++
         [NpSave ("run" +:+ ".npy") (VMat rows_250);
          NpSave ("run" +:+ "_100Hz.npy") (VMat dec);
          NpSavetxt ("run" +:+ "_100Hz.txt") (VMat dec)]
    /\ 100 * (len dec - 1) < len rows_250 <= 100 * len dec
    /\ forall k : nat, dec !! k = rows_250 !! (k * 100)%nat.
Proof.
  apply (decimated_copy_saved bench at_save "run" rows_250);
    first [intros c; reflexivity | vm_compute; reflexivity].
Defined.

(** The scenario of C6 on the bench: 250 rows decimate to rows 0, 100 and
    200. *)
Example decimation_scenario :
  np.step_view rows_250 100 = Ok [[0%Q]; [100%Q]; [200%Q]].
Proof. vm_compute. reflexivity. Qed.

(** * Further properties of the three scripts *)

(** ** Arrays: reshaping, conversion, the hard-coded waveform *)

Section MoreArrayFacts.
Context {F : Type} {float_ops : FloatOps F}.

Lemma chunks_row_length {A} (c rows : nat) (a : list A) :
  (rows * c <= length a)%nat ->
  Forall (fun row => length row = c) (np.chunks c rows a).
Proof.
  revert a. induction rows as [| r IH]; intros a Hlen; simpl.
  - constructor.
  - constructor.
    + rewrite length_take. lia.
    + apply IH. rewrite length_drop. lia.
Qed.

Lemma slice_fill_values {A} (a : list A) (start stop : Z) (x : A)
    (P : A -> Prop) :
  P x -> Forall P a -> Forall P (np.slice_fill a start stop x).
Proof.
  intros Hx Ha. unfold np.slice_fill.
  repeat apply Forall_app_2.
  - by apply Forall_take.
  - by apply Forall_replicate.
  - by apply Forall_drop.
Qed.

Lemma full_negative {A} (n : Z) (x : A) :
  n < 0 -> np.full n x = Raise ValueError.
Proof.
  intros Hn. unfold np.full. destruct (Z.ltb_spec n 0); [done | lia].
Qed.

Lemma every_write_length {A} (k skip : nat) (a b : list A) :
  length (np.every_write k skip a b) = length a.
Proof.
  revert skip b. induction a as [| x a IH]; intros skip b; [done |].
  destruct skip as [| n]; cbn [np.every_write].
  - destruct b as [| y b]; [done |]. cbn [length]. by rewrite IH.
  - cbn [length]. by rewrite IH.
Qed.

Lemma step_assign_scalar {A} (a : list A) (k : Z) (y : A) :
  0 < k ->
  np.step_assign a k [y]
  = Ok (np.every_write (Z.to_nat k - 1) 0 a
          (replicate (length (np.every (Z.to_nat k - 1) 0 a)) y)).
Proof.
  intros Hk. unfold np.step_assign, np.step_view.
  destruct (Z.eqb_spec k 0); [lia |]. destruct (Z.ltb_spec 0 k); [| lia].
  destruct (Nat.eqb_spec (length [y]) (length (np.every (Z.to_nat k - 1) 0 a)))
    as [<- | Hne]; reflexivity.
Qed.

Lemma append_inj_r (p a b : string) : p +:+ a = p +:+ b -> a = b.
Proof.
  induction p as [| c p IH]; simpl; [done |]. intros [= H]. by apply IH.
Qed.

Lemma raw_codes_range (w : world F) (n : Z) :
  Forall (fun c => 0 <= c < 65536) (raw_codes w n).
Proof.
  unfold raw_codes. apply Forall_fmap, Forall_forall. intros k _. simpl.
  apply Z.mod_pos_bound. lia.
Qed.

(** The loop of [convert_loop] from index [k] on, for a position map that
    is [g] on the indices of the buffer, injective and inside the target. *)
Lemma scatter_from (w : world F) (board range : Z) (pos : Z -> Z)
    (g : nat -> nat) (raw : list Z) :
  (forall i : nat, (i < length raw)%nat -> pos (Z.of_nat i) = Z.of_nat (g i)) ->
  (forall i i' : nat,
     (i < length raw)%nat -> (i' < length raw)%nat -> g i = g i' -> i = i') ->
  forall (m k : nat) (acc : list F),
    (k + m)%nat = length raw ->
    (forall i : nat, (i < length raw)%nat -> (g i < length acc)%nat) ->
    exists acc',
      np.for_each (seqZ (Z.of_nat k) (Z.of_nat m))
        (fun i acc =>
           match np.getitem raw i with
           | Ok code =>
               np.setitem acc (pos i) (to_eng_units w board range code)
           | Raise e => Raise e
           end) acc = Ok acc'
      /\ length acc' = length acc
      /\ (forall j : nat,
            (forall i : nat, (k <= i < k + m)%nat -> g i <> j) ->
            acc' !! j = acc !! j)
      /\ (forall (i : nat) (code : Z),
            (k <= i < k + m)%nat -> raw !! i = Some code ->
            acc' !! g i = Some (to_eng_units w board range code)).
Proof.
  intros Hpos Hinj. induction m as [| m IH]; intros k acc Hk Hfit.
  - exists acc. split; [done |]. split; [done |]. split; [done |]. intros; lia.
  - rewrite seqZ_cons by lia. cbn [np.for_each].
    destruct (lookup_lt_is_Some_2 raw k ltac:(lia)) as [code Hcode].
    rewrite (getitem_inside _ _ _ Hcode), Hpos by lia.
    rewrite setitem_inside by (apply Hfit; lia).
    replace (Z.succ (Z.of_nat k)) with (Z.of_nat (S k)) by lia.
    replace (Z.pred (Z.of_nat (S m))) with (Z.of_nat m) by lia.
    destruct (IH (S k) (<[g k := to_eng_units w board range code]> acc))
      as (acc' & Hrun & Hlen & Hkeep & Hset).
    { lia. }
    { intros i Hi. rewrite length_insert. by apply Hfit. }
    exists acc'. split; [exact Hrun |].
    split; [by rewrite Hlen, length_insert |]. split.
    + intros j Hj. rewrite Hkeep by (intros i Hi; apply Hj; lia).
      apply list_lookup_insert_ne. apply Hj. lia.
    + intros i code' Hi Hcode'.
      destruct (decide (i = k)) as [-> | Hne].
      * rewrite Hkeep.
        -- rewrite Hcode in Hcode'. injection Hcode' as <-.
           apply list_lookup_insert_eq. apply Hfit. lia.
        -- intros i' Hi' Heq. apply Hinj in Heq; lia.
      * apply Hset; [lia | done].
Qed.

(** The conversion loop with the position map of line 112, on [rows] rows
    of [c] codes and a target of [rows] rows of [c + 1] values. *)
Lemma scatter_rows (w : world F) (board range c : Z)
    (raw : list Z) (v : list F) (rows : nat) :
  0 < c ->
  (forall i, 0 <= i < len raw -> floor_quot i c = i / c) ->
  len raw = Z.of_nat rows * c ->
  len v = Z.of_nat rows * (c + 1) ->
  exists v',
    convert_loop w board range (fun i => i + 1 + floor_quot i c) raw v = Ok v'
    /\ length v' = length v
    /\ (forall r : nat,
          (r < rows)%nat ->
          v' !! (r * Z.to_nat (c + 1))%nat = v !! (r * Z.to_nat (c + 1))%nat)
    /\ (forall (r k : nat) (code : Z),
          (r < rows)%nat -> Z.of_nat k < c ->
          raw !! (r * Z.to_nat c + k)%nat = Some code ->
          v' !! (r * Z.to_nat (c + 1) + 1 + k)%nat
          = Some (to_eng_units w board range code)).
Proof.
  intros Hc Hquot Hraw Hv. unfold len in *.
  set (g := fun i : nat => Z.to_nat (Z.of_nat i + 1 + Z.of_nat i / c)).
  assert (forall i : nat, 0 <= Z.of_nat i / c) as Hdivpos
    by (intros i; apply Z.div_pos; lia).
  assert (forall i : nat, (i < length raw)%nat ->
            Z.of_nat i + 1 + floor_quot (Z.of_nat i) c = Z.of_nat (g i)) as Hpos.
  { intros i Hi. unfold g. rewrite Hquot by lia.
    pose proof (Hdivpos i). lia. }
  assert (forall i i' : nat, g i = g i' -> i = i') as Hinj.
  { intros i i' Heq. unfold g in Heq.
    pose proof (Hdivpos i). pose proof (Hdivpos i').
    destruct (decide (i <= i')%nat).
    - pose proof (Z.div_le_mono (Z.of_nat i) (Z.of_nat i') c ltac:(lia) ltac:(lia)).
      lia.
    - pose proof (Z.div_le_mono (Z.of_nat i') (Z.of_nat i) c ltac:(lia) ltac:(lia)).
      lia. }
  assert (forall (r k : nat), Z.of_nat k < c ->
            g (r * Z.to_nat c + k)%nat = (r * Z.to_nat (c + 1) + 1 + k)%nat)
    as Hcell.
  { intros r k Hk. unfold g.
    replace (Z.of_nat (r * Z.to_nat c + k)) with (Z.of_nat k + Z.of_nat r * c)
      by lia.
    rewrite Z.div_add by lia. rewrite Z.div_small by lia. lia. }
  assert (forall i : nat, (i < length raw)%nat ->
            exists r k : nat, (r < rows)%nat /\ Z.of_nat k < c
                              /\ i = (r * Z.to_nat c + k)%nat) as Hsplit.
  { intros i Hi.
    exists (Z.to_nat (Z.of_nat i / c)), (Z.to_nat (Z.of_nat i mod c)).
    pose proof (Z.mod_pos_bound (Z.of_nat i) c Hc).
    pose proof (Z.div_mod (Z.of_nat i) c ltac:(lia)).
    pose proof (Hdivpos i).
    assert (Z.of_nat i / c < Z.of_nat rows)
      by (apply Z.div_lt_upper_bound; lia).
    split; [lia |]. split; [lia |]. nia. }
  set (n1 := Z.to_nat (c + 1)) in *.
  assert (Z.of_nat n1 = c + 1) as Hn1 by lia.
  assert (length v = rows * n1)%nat as Hvn by nia.
  assert (forall r r' k : nat, (r < r')%nat -> Z.of_nat k < c ->
            (r * n1 + 1 + k < r' * n1)%nat) as Hbelow.
  { intros r r' k Hr Hk.
    assert (S r * n1 <= r' * n1)%nat by (apply Nat.mul_le_mono_r; lia).
    rewrite Nat.mul_succ_l in *. lia. }
  destruct (scatter_from w board range
              (fun i => i + 1 + floor_quot i c) g raw Hpos
              (fun i i' _ _ => Hinj i i') (length raw) 0%nat v)
    as (v' & Hrun & Hlen & Hkeep & Hset).
  { lia. }
  { intros i Hi. destruct (Hsplit i Hi) as (r & k & Hr & Hk & ->).
    rewrite Hcell by done. rewrite Hvn. by apply Hbelow. }
  exists v'. split; [exact Hrun |]. split; [exact Hlen |]. split.
  - intros r Hr. apply Hkeep. intros i Hi.
    destruct (Hsplit i ltac:(lia)) as (r' & k & Hr' & Hk & ->).
    rewrite Hcell by done.
    destruct (decide (r' < r)%nat) as [Hlt | Hge].
    + pose proof (Hbelow r' r k Hlt Hk). lia.
    + assert (r * n1 <= r' * n1)%nat by (apply Nat.mul_le_mono_r; lia). lia.
  - intros r k code Hr Hk Hcode.
    rewrite <- Hcell by done. apply Hset; [| done].
    split; [apply Nat.le_0_l | apply (lookup_lt_Some _ _ _ Hcode)].
Qed.

(** X15.  Both outcomes of [reshape(-1, c)], the call of line 116 and of
    line 78 of read_4_channels_and_output.py.  When it returns a matrix,
    [c] is positive, the matrix has [len a / c] rows, every row has [c]
    entries and the flat view is [a] again; otherwise it raises
    ValueError, and then [c] is not positive or does not divide the
    length. *)
Theorem reshape_outcomes {A} (a : list A) (c : Z) :
  match np.reshape a c with
  | Ok m =>
      0 < c /\ len a = c * len m
      /\ Forall (fun row => len row = c) m
      /\ np.ravel m = a
  | Raise e => e = ValueError /\ (c <= 0 \/ len a mod c <> 0)
  end.
Proof.
  unfold np.reshape, len.
  destruct (Z.leb_spec c 0) as [Hc | Hc]; [split; [done | by left] |].
  destruct (Z.eqb_spec (Z.of_nat (length a) mod c) 0) as [Hmod | Hmod];
    [| split; [done | by right]].
  assert (Z.of_nat (length a) = c * (Z.of_nat (length a) / c)) as Hdiv
    by (apply Z_div_exact_full_2; lia).
  assert (0 <= Z.of_nat (length a) / c) by (apply Z.div_pos; lia).
  split; [lia |]. rewrite chunks_length.
  split; [lia |]. split.
  - eapply Forall_impl; [apply chunks_row_length; nia |].
    intros row Hrow. simpl in Hrow. lia.
  - unfold np.ravel. rewrite chunks_concat. apply take_ge. nia.
Qed.


(** X8.  The waveform lines 49-51 of read_4_channels_and_output.py build
    has 3000 points and is 5 V exactly on the indices of [100, 200) and of
    [300, 400): at the output rate of 100 Hz, high during the second and
    the fourth second, low before, between and after, as the docstring of
    [measure] says. *)
Theorem waveform_4_matches_docstring :
  length (waveform_4 (F := F)) = Z.to_nat 3000
  /\ forall i : nat,
       (i < Z.to_nat 3000)%nat ->
       waveform_4 !! i
       = Some (if decide (100 <= Z.of_nat i < 200 \/ 300 <= Z.of_nat i < 400)
               then f_five else f_zero).
Proof.
  unfold waveform_4. split.
  - by rewrite !slice_fill_length, length_replicate.
  - intros i Hi.
    rewrite slice_fill_lookup by (rewrite slice_fill_length, length_replicate; lia).
    rewrite slice_fill_length, length_replicate.
    rewrite !clip_index_inside by lia.
    rewrite slice_fill_lookup by (rewrite length_replicate; lia).
    rewrite length_replicate.
    rewrite !clip_index_inside by lia.
    rewrite lookup_replicate_2 by lia.
    repeat case_decide; try done; lia.
Qed.

End MoreArrayFacts.

(** Over the rationals the float quotient of line 112, floored, is the
    integer quotient. *)
Lemma Q_floor_quot (i c : Z) : 0 < c -> floor_quot (F := Q) i c = i / c.
Proof.
  intros Hc. destruct c as [| p | p]; try lia.
  unfold floor_quot, Q_FloatOps, Qfloor, Qdiv, Qmult, Qinv, inject_Z. cbn.
  by rewrite Z.mul_1_r.
Qed.

(** ** Tactics for runs that stop at the first refused call *)

Ltac only_discovery :=
  repeat match goal with
         | |- Forall _ [] => constructor
         | |- Forall _ (_ :: _) =>
             constructor;
             [first [by left | by right; left | by right; right; eexists] |]
         end.

Ltac py_io_case :=
  lazymatch goal with
  | |- context [bind (io ?w ?c) _ _] => destruct (fails w c) eqn:?
  | |- context [io ?w ?c _] => destruct (fails w c) eqn:?
  end.

Ltac made_ok :=
  let c := fresh "c" in
  let Hc := fresh "Hc" in
  intros c Hc;
  repeat (apply elem_of_cons in Hc as [-> | Hc]; [assumption |]);
  by apply elem_of_nil in Hc.

Ltac fail_fast_leaf k :=
  lazymatch goal with
  | |- context [take _ ?calls] => eexists _, _, (take k calls)
  end;
  split; [reflexivity |];
  split; [trace_norm; cbn [firstn]; rewrite ?app_nil_r; reflexivity |];
  exists k; split; [reflexivity |];
  split; [cbn [firstn]; made_ok | cbn [skipn]; first [reflexivity | eauto]].

Ltac fail_fast_leaves :=
  first [ fail_fast_leaf 0%nat | fail_fast_leaf 1%nat | fail_fast_leaf 2%nat
        | fail_fast_leaf 3%nat | fail_fast_leaf 4%nat | fail_fast_leaf 5%nat
        | fail_fast_leaf 6%nat | fail_fast_leaf 7%nat | fail_fast_leaf 8%nat ].

(** ** Initialisation beyond device discovery *)

Section MoreInitialisation.
Context {F : Type} {float_ops : FloatOps F}.

(** X1.  When no driver call is refused and discovery answers with a
    device, [__init__] of the two read scripts returns normally once the
    board reports an input range (and, for read_4_channels_and_output.py, an
    output range): it makes exactly the calls listed, the last of which
    sets the input mode, leaves the object with the attributes [attrs_2],
    respectively [attrs_4], built from the FIRST supported range, and
    allocates no buffer. *)
Theorem read_init_runs (w : world F) (s : state F) (d : descriptor)
    (ds : list descriptor) :
  (forall c, fails w c = None) ->
  inventory w = d :: ds ->
  (forall ai rest, ai_ranges w = ai :: rest ->
     exists s',
       read_2_channels.init w s = (Ok tt, s')
       /\ trace s' = trace s ++
            [IgnoreInstacal; GetDaqDeviceInventory; CreateDaqDevice 0 d;
             DaqDeviceInfo 0; AiSupportedRanges 0; AInputMode 0]
       /\ attrs s' = attrs_2 ai
       /\ next_handle s' = next_handle s)
  /\ (forall ai rest ao rest', ai_ranges w = ai :: rest ->
      ao_ranges w = ao :: rest' ->
      exists s',
        read_4_channels_and_output.init w s = (Ok tt, s')
        /\ trace s' = trace s ++
             [IgnoreInstacal; GetDaqDeviceInventory; CreateDaqDevice 0 d;
              DaqDeviceInfo 0; AiSupportedRanges 0; AoSupportedRanges 0;
              AInputMode 0]
        /\ attrs s' = attrs_4 ai ao
        /\ next_handle s' = next_handle s).
Proof.
  intros Hok Hinv. split.
  - intros ai rest Hai.
    unfold read_2_channels.init, construct, read_2_channels.init_body.
    rewrite Hinv, Hai. py_exec. py_run.
    eexists. split; [reflexivity |]. trace_norm. repeat split; reflexivity.
  - intros ai rest ao rest' Hai Hao.
    unfold read_4_channels_and_output.init, construct,
      read_4_channels_and_output.init_body.
    rewrite Hinv, Hai, Hao. py_exec. py_run.
    eexists. split; [reflexivity |]. trace_norm. repeat split; reflexivity.
Qed.

(** X2.  When the board reports an empty list of supported ranges,
    [supported_ranges[0]] raises IndexError: [__init__] of either read
    script stops right after asking for the ranges, the device already
    created, [ai_range] (respectively [ao_range]) unset and the input mode
    never configured. *)
Theorem init_without_ranges (w : world F) (s : state F) (d : descriptor)
    (ds : list descriptor) :
  (forall c, fails w c = None) ->
  inventory w = d :: ds ->
  (ai_ranges w = [] ->
     (exists s',
        read_2_channels.init w s = (Raise IndexError, s')
        /\ trace s' = trace s ++
             [IgnoreInstacal; GetDaqDeviceInventory; CreateDaqDevice 0 d;
              DaqDeviceInfo 0; AiSupportedRanges 0]
        /\ attrs s' !! "ai_range" = None)
     /\ (exists s',
        read_4_channels_and_output.init w s = (Raise IndexError, s')
        /\ trace s' = trace s ++
             [IgnoreInstacal; GetDaqDeviceInventory; CreateDaqDevice 0 d;
              DaqDeviceInfo 0; AiSupportedRanges 0]
        /\ attrs s' !! "ai_range" = None))
  /\ (forall ai rest, ai_ranges w = ai :: rest -> ao_ranges w = [] ->
      exists s',
        read_4_channels_and_output.init w s = (Raise IndexError, s')
        /\ trace s' = trace s ++
             [IgnoreInstacal; GetDaqDeviceInventory; CreateDaqDevice 0 d;
              DaqDeviceInfo 0; AiSupportedRanges 0; AoSupportedRanges 0]
        /\ attrs s' !! "ai_range" = Some (VRange ai)
        /\ attrs s' !! "ao_range" = None).
Proof.
  intros Hok Hinv. split; [intros Hai; split | intros ai rest Hai Hao].
  - unfold read_2_channels.init, construct, read_2_channels.init_body.
    rewrite Hinv, Hai. py_exec.
    eexists. split; [reflexivity |]. trace_norm. split; [reflexivity |].
    cbn [attrs]. by py_maps.
  - unfold read_4_channels_and_output.init, construct,
      read_4_channels_and_output.init_body.
    rewrite Hinv, Hai. py_exec.
    eexists. split; [reflexivity |]. trace_norm. split; [reflexivity |].
    cbn [attrs]. by py_maps.
  - unfold read_4_channels_and_output.init, construct,
      read_4_channels_and_output.init_body.
    rewrite Hinv, Hai, Hao. py_exec.
    eexists. split; [reflexivity |]. trace_norm. split; [reflexivity |].
    cbn [attrs]. py_maps. split; reflexivity.
Qed.

(** X3.  Whatever the world answers, [__init__] of the thermal-diffusion
    script makes no driver call other than the two discovery calls and the
    creation of board 0, and ends with neither range and neither rate
    bound: lines 51-66 never run. *)
Theorem acquire_init_configures_nothing (w : world F) (s : state F) :
  exists r s' calls,
    acquire_thermal_diffusion_mcc.init w s = (r, s')
    /\ trace s' = trace s ++ calls
    /\ Forall (fun c => c = IgnoreInstacal \/ c = GetDaqDeviceInventory
                        \/ exists d, c = CreateDaqDevice 0 d) calls
    /\ attrs s' !! "ai_range" = None
    /\ attrs s' !! "ao_range" = None
    /\ attrs s' !! "adc_rate_per_channel" = None
    /\ attrs s' !! "dac_rate" = None.
Proof.
  unfold acquire_thermal_diffusion_mcc.init, construct,
    acquire_thermal_diffusion_mcc.init_body.
  destruct (fails w IgnoreInstacal) eqn:E1; py_exec;
    [eexists _, _, []; split; [reflexivity |]; cbn [trace attrs];
     rewrite app_nil_r; py_maps; repeat split; only_discovery |].
  destruct (fails w GetDaqDeviceInventory) eqn:E2; py_exec;
    [eexists _, _, [_]; split; [reflexivity |]; cbn [trace attrs];
     py_maps; repeat split; only_discovery |].
  destruct (inventory w) as [| d ds] eqn:E3; py_exec;
    [eexists _, _, [_; _]; split; [reflexivity |]; trace_norm; cbn [attrs];
     py_maps; repeat split; only_discovery |].
  destruct (fails w (CreateDaqDevice 0 d)) eqn:E4; py_exec;
    [eexists _, _, [_; _]; split; [reflexivity |]; trace_norm; cbn [attrs];
     py_maps; repeat split; only_discovery |].
  eexists _, _, [_; _; _]. split; [reflexivity |]. trace_norm. cbn [attrs].
  py_maps. repeat split; only_discovery.
Qed.
End MoreInitialisation.

(** ** Refused driver calls *)

Section FailFast.
Context {F : Type} {float_ops : FloatOps F}.
#[local] Opaque buffer_view np.full np.slice_fill convert_loop np.reshape
  np.getitem np.step_assign rows_step.



(** X6.  In read_4_channels_and_output.py the output scan is started in
    the background before the input scan.  When the input scan is refused,
    [measure] raises its exception right there: the last call made is the
    output scan, so the output is never stopped and neither buffer is
    freed. *)
Theorem scan_failure_leaves_output_running (w : world F) (s : state F)
    (f : string) (ai ao : Z) (e : exn) :
  attrs s = attrs_4 ai ao ->
  fails w (WinBufAlloc 1200000) = None ->
  fails w (ScaledWinBufAlloc 3000) = None ->
  fails w (ScaledWinArrayToBuf waveform_4 (S (next_handle s)) 0 3000) = None ->
  fails w (AOutScan 0 0 0 3000 100 ao (S (next_handle s))) = None ->
  fails w (AInScan 0 0 3 1200000 10000 ai (next_handle s)) = Some e ->
  exists s',
    read_4_channels_and_output.measure w f s = (Raise e, s')
    /\ trace s' = trace s ++
         [WinBufAlloc 1200000;
          ScaledWinBufAlloc 3000;
          ScaledWinArrayToBuf waveform_4 (S (next_handle s)) 0 3000;
          AOutScan 0 0 0 3000 100 ao (S (next_handle s))].
Proof.
  intros Hattrs H1 H2 H3 H4 H5.
  change 1200000 with (300000 * 4) in H1, H5.
  change 3000 with (100 * 30) in H2, H3, H4.
  unfold waveform_4 in H3.
  change (Z.to_nat 3000) with (Z.to_nat (100 * 30)) in H3.
  unfold read_4_channels_and_output.measure,
    read_4_channels_and_output.measure_body, in_frame, attrs_4 in *.
  py_exec.
  eexists. split; [reflexivity |]. trace_norm. reflexivity.
Qed.

(** X18.  The save step of the thermal-diffusion script, lines 119-121, in
    any world: the three files are written in source order, and the first
    refused write ends the step with its exception, the later files
    unwritten. *)
Theorem measure_save_fail_fast (w : world F) (s : state F) (f : string)
    (m : list (list F)) :
  locals s !! "outfname" = Some (VStr f) ->
  locals s !! "voltage_array" = Some (VMat m) ->
  exists r s' made,
    acquire_thermal_diffusion_mcc.measure_save w s = (r, s')
    /\ trace s' = trace s ++ made
    /\ runs_until_failure w (calls_save f m) r made.
Proof.
  intros Hname Hm.
  unfold acquire_thermal_diffusion_mcc.measure_save, runs_until_failure,
    calls_save.
  py_exec. py_io_case; py_exec; [fail_fast_leaves |].
  py_io_case; py_exec; [fail_fast_leaves |].
  py_io_case; py_exec; py_run; fail_fast_leaves.
Qed.

(** X19.  The clean-up step of the thermal-diffusion script, lines
    124-127, in any world: the input buffer is freed first, and if that is
    refused the step ends there, the background output never stopped. *)
Theorem cleanup_fail_fast (w : world F) (s : state F) (h : handle)
    (board : Z) :
  locals s !! "input_memhandle" = Some (VHandle h) ->
  attrs s !! "board_number" = Some (VInt board) ->
  exists r s' made,
    acquire_thermal_diffusion_mcc.measure_cleanup w s = (r, s')
    /\ trace s' = trace s ++ made
    /\ runs_until_failure w (calls_cleanup h board) r made.
Proof.
  intros Hh Hboard.
  unfold acquire_thermal_diffusion_mcc.measure_cleanup, runs_until_failure,
    calls_cleanup.
  py_exec. py_io_case; py_exec; [fail_fast_leaves |].
  py_io_case; py_exec; py_run; fail_fast_leaves.
Qed.
End FailFast.

(** ** The blocks of [measure] of the thermal-diffusion script *)

Section MoreAcquire.
Context {F : Type} {float_ops : FloatOps F}.
#[local] Opaque buffer_view np.full np.slice_fill convert_loop np.reshape
  np.getitem np.step_assign rows_step.


(** X10.  With a negative number of output points (a total time below
    zero), [np.zeros] of line 80 raises ValueError and the waveform step
    changes nothing. *)
Theorem waveform_negative_length (s : state F) (n : Z) :
  locals s !! "aout_pts" = Some (VInt n) ->
  n < 0 ->
  acquire_thermal_diffusion_mcc.measure_waveform s = (Raise ValueError, s).
Proof.
  intros Hn Hneg.
  unfold acquire_thermal_diffusion_mcc.measure_waveform.
  py_next.
  py_with_raise ltac:(rewrite full_negative by exact Hneg).
  destruct s. reflexivity.
Qed.

(** X11.  Lines 80-95 together, when no call is refused: the output buffer
    is allocated with [aout_pts] points, the array handed to the driver is
    the waveform just built, of that same length, and the output scan is
    started on the same handle, channel range, rate and range as the
    attributes give. *)
Theorem output_scan_matches_waveform (w : world F) (s : state F)
    (lag pulse : F) (n rate board lo hi range : Z) :
  locals s !! "lag_time" = Some (VFloat lag) ->
  locals s !! "pulse_length" = Some (VFloat pulse) ->
  locals s !! "aout_pts" = Some (VInt n) ->
  attrs s !! "dac_rate" = Some (VInt rate) ->
  attrs s !! "board_number" = Some (VInt board) ->
  attrs s !! "out_low_channel" = Some (VInt lo) ->
  attrs s !! "out_high_channel" = Some (VInt hi) ->
  attrs s !! "ao_range" = Some (VRange range) ->
  0 <= n ->
  (forall c, fails w c = None) ->
  exists buf s',
    (acquire_thermal_diffusion_mcc.measure_waveform ;;
     acquire_thermal_diffusion_mcc.measure_start_output w)%py s = (Ok tt, s')
    /\ trace s' = trace s ++
         [ScaledWinBufAlloc n;
          ScaledWinArrayToBuf buf (next_handle s) 0 n;
          AOutScan board lo hi n rate range (next_handle s)]
    /\ len buf = n
    /\ locals s' !! "output_data" = Some (VVec buf)
    /\ locals s' !! "output_memhandle" = Some (VHandle (next_handle s)).
Proof.
  intros Hlag Hpulse Hn Hrate Hboard Hlo Hhi Hrange Hpos Hok.
  unfold acquire_thermal_diffusion_mcc.measure_waveform,
    acquire_thermal_diffusion_mcc.measure_start_output.
  py_exec. py_run.
  eexists _, _. split; [reflexivity |]. trace_norm.
  split; [reflexivity |]. cbn [locals]. py_maps.
  split; [| split; reflexivity].
  unfold len. rewrite slice_fill_length, length_replicate. lia.
Qed.

(** X12.  The input scan, lines 98-103: one scan call for
    [total_input_pts] samples on the input handle, then a view of the
    buffer with exactly that many codes, each a 16-bit unsigned value; the
    rate the driver reports is kept in [actual_rate]. *)
Theorem input_scan_fills_view (w : world F) (s : state F)
    (n rate board lo hi range : Z) (h : handle) :
  locals s !! "total_input_pts" = Some (VInt n) ->
  locals s !! "input_memhandle" = Some (VHandle h) ->
  locals s !! "data_array" = Some (VHandle h) ->
  attrs s !! "board_number" = Some (VInt board) ->
  attrs s !! "in_low_channel" = Some (VInt lo) ->
  attrs s !! "in_high_channel" = Some (VInt hi) ->
  attrs s !! "adc_rate_per_channel" = Some (VInt rate) ->
  attrs s !! "ai_range" = Some (VRange range) ->
  0 <= n ->
  fails w (AInScan board lo hi n rate range h) = None ->
  exists raw s',
    acquire_thermal_diffusion_mcc.measure_scan_input w s = (Ok tt, s')
    /\ trace s' = trace s ++ [AInScan board lo hi n rate range h]
    /\ locals s' !! "actual_rate" = Some (VInt (actual_rate w))
    /\ locals s' !! "np_data_array" = Some (VRaw raw)
    /\ len raw = n
    /\ Forall (fun c => 0 <= c < 65536) raw.
Proof.
  intros Hn Hh Hd Hboard Hlo Hhi Hrate Hrange Hpos Hok.
  unfold acquire_thermal_diffusion_mcc.measure_scan_input.
  py_exec. py_run.
  eexists _, _. split; [reflexivity |]. trace_norm.
  split; [reflexivity |]. cbn [locals]. py_maps.
  split; [reflexivity |]. split; [reflexivity |].
  split; [by apply raw_codes_len | apply raw_codes_range].
Qed.


(** X21.  The conversion step, lines 108-114, for every count of at least
    two points per channel and at least one channel: the stride of line
    110 selects more positions than there are times, the assignment is
    refused with a ValueError before any code is converted, no driver call
    is made, and the array is still all zero. *)
Theorem times_refused_from_two_points (w : world F) (s : state F)
    (points channels rate : Z) :
  locals s !! "total_input_pts" = Some (VInt (points * channels)) ->
  locals s !! "ain_pts_per_channel" = Some (VInt points) ->
  locals s !! "actual_rate" = Some (VInt rate) ->
  attrs s !! "n_in_channels" = Some (VInt channels) ->
  2 <= points -> 1 <= channels ->
  exists s',
    acquire_thermal_diffusion_mcc.measure_convert w s = (Raise ValueError, s')
    /\ trace s' = trace s
    /\ locals s' !! "voltage_array"
       = Some (VVec (replicate (Z.to_nat (points * channels + points)) f_zero)).
Proof.
  intros Htotal Hpoints Hrate Hchannels Hp Hc.
  unfold acquire_thermal_diffusion_mcc.measure_convert.
  py_next. py_next.
  py_with ltac:(rewrite full_ok by nia).
  py_exec.
  py_with_raise ltac:(rewrite step_assign_mismatch).
  - eexists. split; [reflexivity |]. split; [reflexivity |].
    cbn [locals]. by py_maps.
  - lia.
  - rewrite length_fmap. unfold np.arange. rewrite length_seqZ.
    rewrite every_length, length_replicate.
    replace (Z.to_nat (Z.max 0 points)) with (Z.to_nat points) by lia.
    rewrite Z2Nat.inj_add, Z2Nat.inj_mul by nia.
    destruct (Z.to_nat channels) as [| k] eqn:Hk; [lia |].
    replace (S k - 1)%nat with k by lia.
    assert (S (Z.to_nat points)
            <= (Z.to_nat points * S k + Z.to_nat points - 0 + k) / S k)%nat
      as Hle by (apply Nat.div_le_lower_bound; [lia | nia]).
    lia.
  - rewrite length_fmap. unfold np.arange. rewrite length_seqZ. lia.
Qed.

(** X16.  The reshape of line 116 fits the array line 108 allocates: an
    array of [points * channels + points] values reshapes without error to
    [points] rows of [channels + 1] columns, and flattening the rows gives
    the array back. *)
Theorem reshape_fits_time_column (s : state F) (v : list F)
    (points channels : Z) :
  locals s !! "voltage_array" = Some (VVec v) ->
  attrs s !! "n_in_channels" = Some (VInt channels) ->
  0 <= points -> 0 <= channels ->
  len v = points * channels + points ->
  exists m s',
    acquire_thermal_diffusion_mcc.measure_reshape s = (Ok tt, s')
    /\ locals s' !! "voltage_array" = Some (VMat m)
    /\ len m = points
    /\ Forall (fun row => len row = channels + 1) m
    /\ np.ravel m = v.
Proof.
  intros Hv Hc Hp Hch Hlen. unfold len in *.
  unfold acquire_thermal_diffusion_mcc.measure_reshape.
  py_exec.
  py_with ltac:(rewrite (reshape_ok _ (channels + 1) points); [| lia | lia | lia]).
  py_run.
  eexists _, _. split; [reflexivity |]. cbn [locals]. py_maps.
  split; [reflexivity |]. split; [| split].
  - unfold len. rewrite chunks_length. lia.
  - eapply Forall_impl; [apply chunks_row_length; nia |].
    intros row Hrow. unfold len. simpl in Hrow. lia.
  - unfold np.ravel. rewrite chunks_concat. apply take_ge. nia.
Qed.

(** X17.  For every base name, the save step of lines 119-121 writes
    three files under three different names: no write of a measurement
    overwrites another one of the same measurement. *)
Theorem save_names_distinct (w : world F) (s : state F) (f : string)
    (m : list (list F)) :
  locals s !! "outfname" = Some (VStr f) ->
  locals s !! "voltage_array" = Some (VMat m) ->
  (forall c, fails w c = None) ->
  exists s' calls,
    acquire_thermal_diffusion_mcc.measure_save w s = (Ok tt, s')
    /\ trace s' = trace s ++ calls
    /\ length (saved calls) = 3%nat
    /\ NoDup (fst <$> saved calls).
Proof.
  intros Hname Hm Hok.
  unfold acquire_thermal_diffusion_mcc.measure_save.
  py_exec. py_run.
  eexists _, _. split; [reflexivity |]. trace_norm.
  split; [reflexivity |]. split; [reflexivity |].
  cbn [saved omap fmap list_fmap fst].
  repeat constructor.
  - intros Hin. repeat (apply elem_of_cons in Hin as [Hin | Hin];
                        [apply append_inj_r in Hin; discriminate |]).
    by apply elem_of_nil in Hin.
  - intros Hin. repeat (apply elem_of_cons in Hin as [Hin | Hin];
                        [apply append_inj_r in Hin; discriminate |]).
    by apply elem_of_nil in Hin.
  - intros Hin. by apply elem_of_nil in Hin.
Qed.

(** X20.  As long as the module binds no [total_count], a call of
    [measure] raises before its first driver call, whatever the object's
    attributes, the arguments and the world: nothing is allocated, no scan
    is started, nothing is saved, and the attributes are as before. *)
Theorem measure_never_reaches_hardware (w : world F) (s : state F)
    (pulse lag dur : F) (f : string) :
  "total_count"%string ∉ globals s ->
  exists e s',
    acquire_thermal_diffusion_mcc.measure w pulse lag dur f s = (Raise e, s')
    /\ trace s' = trace s
    /\ next_handle s' = next_handle s
    /\ attrs s' = attrs s.
Proof.
  intros Hglobal.
  assert (bool_decide ("total_count"%string ∈ globals s) = false) as Hunbound
    by (by apply bool_decide_eq_false_2).
  unfold acquire_thermal_diffusion_mcc.measure, in_frame,
    acquire_thermal_diffusion_mcc.measure_body,
    acquire_thermal_diffusion_mcc.measure_counts,
    acquire_thermal_diffusion_mcc.measure_alloc_input.
  py_exec.
  destruct (attrs s !! "adc_rate_per_channel") as [[] |] eqn:Hadc; py_exec;
    try (eexists _, _; split; [reflexivity |]; repeat split; reflexivity).
  destruct (attrs s !! "dac_rate") as [[] |] eqn:Hdac; py_exec;
    try (eexists _, _; split; [reflexivity |]; repeat split; reflexivity).
  destruct (attrs s !! "n_in_channels") as [[] |] eqn:Hn; py_exec;
    eexists _, _; (split; [reflexivity |]); repeat split; reflexivity.
Qed.
End MoreAcquire.

(** ** The further properties on the bench *)

Lemma read_init_runs_witness :
  (exists s',
     read_2_channels.init bench (fresh (F := Q) read_2_channels.module_globals)
       = (Ok tt, s')
     /\ trace s' = trace (fresh (F := Q) read_2_channels.module_globals) ++
          [IgnoreInstacal; GetDaqDeviceInventory;
           CreateDaqDevice 0 "USB-234"%string;
           DaqDeviceInfo 0; AiSupportedRanges 0; AInputMode 0]
     /\ attrs s' = attrs_2 1
     /\ next_handle s'
        = next_handle (fresh (F := Q) read_2_channels.module_globals)).
Proof.
  exact (proj1 (read_init_runs bench (fresh read_2_channels.module_globals)
                  "USB-234"%string [] (fun _ => eq_refl) eq_refl)
           1 [] eq_refl).
Defined.

Lemma init_without_ranges_witness :
  (exists s',
     read_4_channels_and_output.init no_output_ranges
       (fresh read_4_channels_and_output.module_globals)
       = (Raise IndexError, s')
     /\ trace s'
        = trace (fresh (F := Q) read_4_channels_and_output.module_globals) ++
          [IgnoreInstacal; GetDaqDeviceInventory;
           CreateDaqDevice 0 "USB-234"%string;
           DaqDeviceInfo 0; AiSupportedRanges 0; AoSupportedRanges 0]
     /\ attrs s' !! "ai_range" = Some (VRange 1)
     /\ attrs s' !! "ao_range" = None).
Proof.
  exact (proj2 (init_without_ranges no_output_ranges
                  (fresh read_4_channels_and_output.module_globals)
                  "USB-234"%string [] (fun _ => eq_refl) eq_refl)
           1 [] eq_refl eq_refl).
Defined.



Lemma scan_failure_leaves_output_running_witness :
  exists s',
    read_4_channels_and_output.measure scan_refused "run" idle_4
      = (Raise (ULError 29), s')
    /\ trace s' = trace idle_4 ++
         [WinBufAlloc 1200000;
          ScaledWinBufAlloc 3000;
          ScaledWinArrayToBuf waveform_4 (S (next_handle idle_4)) 0 3000;
          AOutScan 0 0 0 3000 100 1 (S (next_handle idle_4))].
Proof.
  exact (scan_failure_leaves_output_running scan_refused idle_4 "run" 1 1
           (ULError 29) eq_refl eq_refl eq_refl eq_refl eq_refl eq_refl).
Defined.


Lemma waveform_negative_length_witness :
  acquire_thermal_diffusion_mcc.measure_waveform (at_waveform 1 2 (-100) 100)
  = (Raise ValueError, at_waveform 1 2 (-100) 100).
Proof.
  refine (waveform_negative_length (at_waveform 1 2 (-100) 100) (-100) _ _);
    vm_compute; reflexivity.
Defined.

Lemma output_scan_matches_waveform_witness :
  exists buf s',
    (acquire_thermal_diffusion_mcc.measure_waveform ;;
     acquire_thermal_diffusion_mcc.measure_start_output bench)%py at_output
      = (Ok tt, s')
    /\ trace s' = trace at_output ++
         [ScaledWinBufAlloc 600;
          ScaledWinArrayToBuf buf (next_handle at_output) 0 600;
          AOutScan 0 0 0 600 100 1 (next_handle at_output)]
    /\ len buf = 600
    /\ locals s' !! "output_data" = Some (VVec buf)
    /\ locals s' !! "output_memhandle" = Some (VHandle (next_handle at_output)).
Proof.
  refine (output_scan_matches_waveform bench at_output 1%Q 2%Q 600 100 0 0 0 1
            _ _ _ _ _ _ _ _ _ (fun _ => eq_refl));
    vm_compute; first [reflexivity | discriminate].
Defined.

Lemma input_scan_fills_view_witness :
  exists raw s',
    acquire_thermal_diffusion_mcc.measure_scan_input bench at_scan = (Ok tt, s')
    /\ trace s' = trace at_scan ++ [AInScan 0 0 6 14 10000 1 0%nat]
    /\ locals s' !! "actual_rate" = Some (VInt (actual_rate bench))
    /\ locals s' !! "np_data_array" = Some (VRaw raw)
    /\ len raw = 14
    /\ Forall (fun c => 0 <= c < 65536) raw.
Proof.
  refine (input_scan_fills_view bench at_scan 14 10000 0 0 6 1 0%nat
            _ _ _ _ _ _ _ _ _ _);
    vm_compute; first [reflexivity | discriminate].
Defined.



Lemma times_refused_from_two_points_witness :
  exists s',
    acquire_thermal_diffusion_mcc.measure_convert bench at_convert
      = (Raise ValueError, s')
    /\ trace s' = trace at_convert
    /\ locals s' !! "voltage_array"
       = Some (VVec (replicate (Z.to_nat (2 * 7 + 2)) f_zero)).
Proof.
  refine (times_refused_from_two_points bench at_convert 2 7 10000
            _ _ _ _ _ _);
    vm_compute; first [reflexivity | discriminate].
Defined.

Lemma reshape_fits_time_column_witness :
  exists m s',
    acquire_thermal_diffusion_mcc.measure_reshape at_reshape = (Ok tt, s')
    /\ locals s' !! "voltage_array" = Some (VMat m)
    /\ len m = 2
    /\ Forall (fun row => len row = 7 + 1) m
    /\ np.ravel m = replicate 16 0%Q.
Proof.
  refine (reshape_fits_time_column at_reshape (replicate 16 0%Q) 2 7
            _ _ _ _ _);
    vm_compute; first [reflexivity | discriminate].
Defined.

Lemma save_names_distinct_witness :
  exists s' calls,
    acquire_thermal_diffusion_mcc.measure_save bench at_save = (Ok tt, s')
    /\ trace s' = trace at_save ++ calls
    /\ length (saved calls) = 3%nat
    /\ NoDup (fst <$> saved calls).
Proof.
  apply (save_names_distinct bench at_save "run" rows_250);
    first [intros c; reflexivity | vm_compute; reflexivity].
Defined.

Lemma measure_save_fail_fast_witness :
  exists r s' made,
    acquire_thermal_diffusion_mcc.measure_save bench at_save = (r, s')
    /\ trace s' = trace at_save ++ made
    /\ runs_until_failure bench (calls_save "run" rows_250) r made.
Proof.
  apply (measure_save_fail_fast bench at_save "run" rows_250);
    vm_compute; reflexivity.
Defined.

Lemma cleanup_fail_fast_witness :
  exists r s' made,
    acquire_thermal_diffusion_mcc.measure_cleanup bench at_cleanup = (r, s')
    /\ trace s' = trace at_cleanup ++ made
    /\ runs_until_failure bench (calls_cleanup 0%nat 0) r made.
Proof.
  apply (cleanup_fail_fast bench at_cleanup 0%nat 0); vm_compute; reflexivity.
Defined.

Lemma measure_never_reaches_hardware_witness :
  exists e s',
    acquire_thermal_diffusion_mcc.measure bench 2%Q 1%Q 5%Q "run" patched
      = (Raise e, s')
    /\ trace s' = trace patched
    /\ next_handle s' = next_handle patched
    /\ attrs s' = attrs patched.
Proof.
  apply (measure_never_reaches_hardware bench patched 2%Q 1%Q 5%Q "run").
  intros Hin.
  repeat (apply elem_of_cons in Hin as [Hin | Hin]; [discriminate Hin |]).
  by apply elem_of_nil in Hin.
Defined.
